(** * Separate Layers: a publish hook for Photoshop documents

    Shallow embedding of [separate_layers.py].  The hook is a thin
    sequence of calls into three collaborators: the host application's
    document objects, the layer decoding library and the tracking system's
    registration call.  The collaborators are modelled by a small world
    (a file store keyed by absolute path, the process working directory,
    the tracking server) so that the four lifecycle methods can be run on
    concrete inputs. *)

From Stdlib Require Import String Ascii List ZArith.
From stdpp Require Import base option gmap strings list.

Local Open Scope string_scope.

(** ** Python values and exceptions *)

(** The exceptions the hook can meet.  [KeyboardInterrupt] and
    [SystemExit] derive from [BaseException] only, so a clause
    [except Exception] lets them through. *)
Inductive exn : Type :=
| KeyError (key : string)
| AttributeError (attr : string)
| TypeError
| IOError (path : string)
| OSError (path : string)
| DecodeError
| ShotgunError
| RuntimeError (msg : string)
| KeyboardInterrupt
| SystemExit.

Definition is_Exception (e : exn) : bool :=
  match e with
  | KeyboardInterrupt | SystemExit => false
  | _ => true
  end.

(** Reading an attribute of a host object either raises or yields. *)
Definition Attr (A : Type) : Type := (exn + A)%type.

(** [document.fullName] is a file object whose [fsName] is the path on
    disk; either read may fail on the host side. *)
Record FileObject : Type := mkFileObject {
  fsName : Attr (option string)
}.

Record Document : Type := mkDocument {
  doc_name : string;
  doc_repr : string;
  fullName : Attr (option FileObject)
}.

Inductive PyVal : Type :=
| VNone
| VBool (b : bool)
| VStr (s : string)
| VDoc (d : Document).

(** Python truth value: [None], [False] and the empty string are falsy. *)
Definition truthy (v : PyVal) : bool :=
  match v with
  | VNone => false
  | VBool b => b
  | VStr s => negb (String.eqb s "")
  | VDoc _ => true
  end.

(** [str(v)], as used by [%s]. *)
Definition py_str (v : PyVal) : string :=
  match v with
  | VNone => "None"
  | VBool true => "True"
  | VBool false => "False"
  | VStr s => s
  | VDoc d => doc_repr d
  end.

Definition path_value (p : option string) : PyVal :=
  match p with
  | Some s => VStr s
  | None => VNone
  end.

(** ** posixpath *)

Module posixpath.

Definition is_sep (c : ascii) : bool := Ascii.eqb c "/"%char.

Definition startswith_sep (s : string) : bool :=
  match s with
  | String c _ => is_sep c
  | EmptyString => false
  end.

Fixpoint endswith_sep (s : string) : bool :=
  match s with
  | EmptyString => false
  | String c EmptyString => is_sep c
  | String _ r => endswith_sep r
  end.

Definition is_empty (s : string) : bool :=
  match s with
  | EmptyString => true
  | String _ _ => false
  end.

(** [p[:p.rfind('/') + 1]] *)
Fixpoint head_of (p : string) : string :=
  match p with
  | EmptyString => EmptyString
  | String c r =>
      let r' := head_of r in
      if is_empty r'
      then (if is_sep c then String c EmptyString else EmptyString)
      else String c r'
  end.

(** [s == '/' * len(s)] *)
Fixpoint all_sep (s : string) : bool :=
  match s with
  | EmptyString => true
  | String c r => is_sep c && all_sep r
  end.

(** [s.rstrip('/')] *)
Fixpoint rstrip_sep (s : string) : string :=
  match s with
  | EmptyString => EmptyString
  | String c r =>
      let r' := rstrip_sep r in
      if is_empty r' && is_sep c then EmptyString else String c r'
  end.

Definition dirname (p : string) : string :=
  let head := head_of p in
  if negb (is_empty head) && negb (all_sep head)
  then rstrip_sep head
  else head.

(** [os.path.join(a, b)] *)
Definition join (a b : string) : string :=
  if startswith_sep b then b
  else if is_empty a || endswith_sep a then a +:+ b
  else a +:+ "/" +:+ b.






End posixpath.

(** ** The world the hook runs in *)

Definition Image : Type := list Z.

(** A decoded layer: its name and what [compose()] returns
    ([None] for a layer without pixels). *)
Record Layer : Type := mkLayer {
  layer_name : string;
  layer_compose : option Image
}.

Inductive FileData : Type :=
| PsdFile (layers : list Layer)
| ImageFile (img : Image)
| OtherFile.

Record Context : Type := mkContext {
  entity : option string;
  project : option string
}.

(** One call of [sgtk.util.register_publish]. *)
Record Publish : Type := mkPublish {
  rp_tk : string;
  rp_context : Context;
  rp_path : string;
  rp_name : string;
  rp_version_number : option Z;
  rp_published_file_type : string
}.

Inductive Callback : Type :=
| EngineSaveAs (document : PyVal)
| ShowFileSaveDlg.

Inductive Extra : Type :=
| ActionButton (label tooltip : string) (callback : Callback)
| ActionShowInShotgun (label tooltip : string) (ent : option string).

Inductive Level : Type := INFO | WARNING.

Record LogRecord : Type := mkLog {
  level : Level;
  message : string;
  extra : option Extra
}.

(** Calls that leave the hook, in the order they are made. *)
Inductive Call : Type :=
| ReadFullName (d : Document)
| ReadFsName (f : FileObject)
| ReadName (d : Document)
| PsdOpen (path : PyVal)
| ImageSave (filename : string)
| RegisterPublish (r : Publish)
| OsRemove (path : PyVal).

Record App : Type := mkApp {
  has_show_file_save_dlg : bool
}.

(** What the framework injects and the hook only reads. *)
Record Env : Type := mkEnv {
  engine_apps : gmap string App;
  publisher_sgtk : string;
  item_context : Context
}.

Record State : Type := mkState {
  item_properties : gmap string PyVal;
  cwd : string;
  files : gmap string FileData;
  locked : gset string;
  sg_online : bool;
  sg_entities : list Publish;
  calls : list Call;
  log : list LogRecord
}.

Definition set_properties (f : gmap string PyVal → gmap string PyVal) (s : State) : State :=
  mkState (f (item_properties s)) (cwd s) (files s) (locked s)
          (sg_online s) (sg_entities s) (calls s) (log s).

Definition set_files (f : gmap string FileData → gmap string FileData) (s : State) : State :=
  mkState (item_properties s) (cwd s) (f (files s)) (locked s)
          (sg_online s) (sg_entities s) (calls s) (log s).

Definition add_entity (r : Publish) (s : State) : State :=
  mkState (item_properties s) (cwd s) (files s) (locked s)
          (sg_online s) (sg_entities s ++ [r]) (calls s) (log s).

Definition add_call (c : Call) (s : State) : State :=
  mkState (item_properties s) (cwd s) (files s) (locked s)
          (sg_online s) (sg_entities s) (calls s ++ [c]) (log s).

Definition add_log (r : LogRecord) (s : State) : State :=
  mkState (item_properties s) (cwd s) (files s) (locked s)
          (sg_online s) (sg_entities s) (calls s) (log s ++ [r]).

(** A relative file name is resolved against the working directory.  The
    file store is keyed by the path as it is spelled; where a statement
    tells two files apart it compares the normal forms of their paths
    ([posixpath.normpath]). *)
Definition resolve (s : State) (p : string) : string :=
  posixpath.join (cwd s) p.

(** ** State and exceptions *)

Inductive Outcome (A : Type) : Type :=
| Normal (a : A)
| Raised (e : exn).
Arguments Normal {A} a.
Arguments Raised {A} e.

Definition M (A : Type) : Type := State → Outcome A * State.

Definition ret {A} (a : A) : M A := λ s, (Normal a, s).

Definition bind {A B} (m : M A) (k : A → M B) : M B :=
  λ s, match m s with
       | (Normal a, s') => k a s'
       | (Raised e, s') => (Raised e, s')
       end.

Definition raise {A} (e : exn) : M A := λ s, (Raised e, s).

Definition effect (f : State → State) : M unit := λ s, (Normal tt, f s).

Definition ask {A} (f : State → A) : M A := λ s, (Normal (f s), s).

(** [try: m  except Exception: h] *)
Definition try_except {A} (m : M A) (h : M A) : M A :=
  λ s, match m s with
       | (Raised e, s') => if is_Exception e then h s' else (Raised e, s')
       | r => r
       end.

Declare Scope py_scope.
Delimit Scope py_scope with py.
Notation "x <- m ;; k" := (bind m (λ x, k))
  (at level 100, m at next level, right associativity) : py_scope.
Notation "m ;; k" := (bind m (λ _, k))
  (at level 100, right associativity) : py_scope.
Local Open Scope py_scope.

(** [for x in xs: body] *)
Fixpoint for_each {A} (xs : list A) (body : A → M unit) : M unit :=
  match xs with
  | [] => ret tt
  | x :: xs' => body x ;; for_each xs' body
  end.

Definition from_attr {A} (a : Attr A) : M A :=
  match a with
  | inl e => raise e
  | inr v => ret v
  end.

(** ** The collaborators *)

Definition logger_warn (msg : string) (ex : option Extra) : M unit :=
  effect (add_log (mkLog WARNING msg ex)).

Definition logger_info (msg : string) (ex : option Extra) : M unit :=
  effect (add_log (mkLog INFO msg ex)).

(** [item.properties.get(key, dflt)] *)
Definition properties_get (key : string) (dflt : PyVal) : M PyVal :=
  ask (λ s, default dflt (item_properties s !! key)).

(** [item.properties[key]] *)
Definition properties_getitem (key : string) : M PyVal :=
  λ s, match item_properties s !! key with
       | Some v => (Normal v, s)
       | None => (Raised (KeyError key), s)
       end.

(** [item.properties[key] = v] *)
Definition properties_setitem (key : string) (v : PyVal) : M unit :=
  effect (set_properties (insert key v)).

(** [document.fullName] *)
Definition get_fullName (document : PyVal) : M (option FileObject) :=
  match document with
  | VDoc d => effect (add_call (ReadFullName d)) ;; from_attr (fullName d)
  | _ => raise (AttributeError "fullName")
  end.

(** [f.fsName] *)
Definition get_fsName (f : option FileObject) : M PyVal :=
  match f with
  | Some o => effect (add_call (ReadFsName o)) ;;
              p <- from_attr (fsName o) ;; ret (path_value p)
  | None => raise (AttributeError "fsName")
  end.

(** [document.name] *)
Definition get_name (document : PyVal) : M string :=
  match document with
  | VDoc d => effect (add_call (ReadName d)) ;; ret (doc_name d)
  | _ => raise (AttributeError "name")
  end.

(** [PSDImage.open(path)]: reads the whole file and yields its layers. *)
Definition PSDImage_open (path : PyVal) : M (list Layer) :=
  effect (add_call (PsdOpen path)) ;;
  match path with
  | VStr p =>
      if posixpath.is_empty p then raise (IOError p)
      else λ s, match files s !! resolve s p with
                | Some (PsdFile ls) => (Normal ls, s)
                | Some _ => (Raised DecodeError, s)
                | None => (Raised (IOError p), s)
                end
  | _ => raise TypeError
  end.

(** [img.save(filename)] on what [compose()] returned.  The targets at
    which a write is refused, for whatever reason (permissions, a
    directory that is missing, a name the image library maps to no
    format), are those of [locked]. *)
Definition Image_save (img : option Image) (filename : string) : M unit :=
  match img with
  | None => raise (AttributeError "save")
  | Some i =>
      effect (add_call (ImageSave filename)) ;;
      λ s, if decide (resolve s filename ∈ locked s)
           then (Raised (IOError filename), s)
           else (Normal tt, set_files (insert (resolve s filename) (ImageFile i)) s)
  end.

(** [os.path.dirname(path)] *)
Definition os_path_dirname (path : PyVal) : M string :=
  match path with
  | VStr p => ret (posixpath.dirname p)
  | _ => raise (AttributeError "rfind")
  end.

(** [sgtk.util.register_publish(tk, context, path, name, version_number,
    published_file_type)] *)
Definition register_publish (r : Publish) : M unit :=
  effect (add_call (RegisterPublish r)) ;;
  λ s, if sg_online s then (Normal tt, add_entity r s)
       else (Raised ShotgunError, s).

(** [os.remove(path)], as far as the file store decides it: a path that
    is no string, a missing file and a protected file.  An interruption of
    the call is outside this model; what [finalize] does with one is
    stated for [finalize_with]. *)
Definition os_remove (path : PyVal) : M unit :=
  effect (add_call (OsRemove path)) ;;
  match path with
  | VStr p =>
      if posixpath.is_empty p then raise (OSError p)
      else λ s, if decide (resolve s p ∈ locked s)
                then (Raised (OSError p), s)
                else match files s !! resolve s p with
                     | Some _ => (Normal tt, set_files (delete (resolve s p)) s)
                     | None => (Raised (OSError p), s)
                     end
  | _ => raise TypeError
  end.

(** ** The hook *)

Definition name : string := "Separate Layers".

Definition settings : gmap string PyVal := ∅.

Definition item_filters : list string := ["photoshop.document"].

(** [document.fullName.fsName] *)
Definition read_fsName (document : PyVal) : M PyVal :=
  f <- get_fullName document ;; get_fsName f.

Definition _document_path (document : PyVal) : M PyVal :=
  try_except (read_fsName document) (ret VNone).

Definition _get_save_as_action (env : Env) (document : PyVal) : Extra :=
  let callback := EngineSaveAs document in
  let callback :=
    match engine_apps env !! "tk-multi-workfiles2" with
    | Some app => if has_show_file_save_dlg app then ShowFileSaveDlg else callback
    | None => callback
    end in
  ActionButton "Save As..." "Save the current document" callback.

Definition accept (env : Env) : M (gmap string bool) :=
  document <- properties_get "document" VNone ;;
  if negb (truthy document) then
    logger_warn "Could not determine the document for item" None ;;
    ret {[ "accepted" := false ]}
  else
    path <- _document_path document ;;
    (if negb (truthy path) then
       n <- get_name document ;;
       logger_warn ("The Photoshop document '" +:+ n +:+ "' has not been saved.")
                   (Some (_get_save_as_action env document))
     else ret tt) ;;
    n <- get_name document ;;
    logger_info ("Photoshop '" +:+ name +:+ "' plugin accepted document: " +:+ n) None ;;
    ret (<[ "accepted" := true ]> {[ "checked" := true ]}).

Definition validate (env : Env) : M bool :=
  document <- properties_getitem "document" ;;
  path <- _document_path document ;;
  psdProject <- PSDImage_open path ;;
  for_each psdProject (λ layer,
    logger_info ("Validated " +:+ layer_name layer +:+ ".psd") None) ;;
  ret true.

Definition publish_layer (env : Env) (path : PyVal) (layer : Layer) : M unit :=
  Image_save (layer_compose layer) (layer_name layer +:+ ".tiff") ;;
  logger_info ("Saved Layer " +:+ layer_name layer +:+ ".psd") None ;;
  dir <- os_path_dirname path ;;
  register_publish
    (mkPublish (publisher_sgtk env) (item_context env)
               (posixpath.join dir (layer_name layer +:+ ".tiff"))
               (layer_name layer) None "Rendered Image").

Definition publish (env : Env) : M unit :=
  document <- properties_getitem "document" ;;
  path <- _document_path document ;;
  properties_setitem "upload_path" path ;;
  psdProject <- PSDImage_open path ;;
  for_each psdProject (publish_layer env path).

Definition finalize (env : Env) : M unit :=
  logger_info "Version uploaded for Photoshop document"
    (Some (ActionShowInShotgun "Show Version" "Reveal the version in Shotgun." None)) ;;
  upload_path <- properties_getitem "upload_path" ;;
  remove_upload <- properties_get "remove_upload" (VBool false) ;;
  if truthy remove_upload then
    try_except
      (os_remove upload_path)
      (logger_warn ("Unable to remove temp file: " +:+ py_str upload_path) None)
  else ret tt.

Definition _get_version_entity (env : Env) : option string :=
  if truthy (path_value (entity (item_context env)))
  then entity (item_context env)
  else if truthy (path_value (project (item_context env)))
  then project (item_context env)
  else None.

(** [finalize] with the removal left open: [remove] stands for
    [os.remove], so that what [finalize] does with an exception of the
    removal can be told apart from what the removal does. *)
Definition finalize_with (remove : PyVal → M unit) (env : Env) : M unit :=
  logger_info "Version uploaded for Photoshop document"
    (Some (ActionShowInShotgun "Show Version" "Reveal the version in Shotgun." None)) ;;
  upload_path <- properties_getitem "upload_path" ;;
  remove_upload <- properties_get "remove_upload" (VBool false) ;;
  if truthy remove_upload then
    try_except
      (remove upload_path)
      (logger_warn ("Unable to remove temp file: " +:+ py_str upload_path) None)
  else ret tt.

(** ** Observations on a run *)

(** The registration calls among the calls made, in order. *)
Definition registrations (cs : list Call) : list Publish :=
  omap (λ c, match c with RegisterPublish r => Some r | _ => None end) cs.

(** The file names handed to [save], in order. *)
Definition saves (cs : list Call) : list string :=
  omap (λ c, match c with ImageSave f => Some f | _ => None end) cs.

(** Two states that differ at most in the calls recorded. *)
Definition same_but_calls (s s' : State) : Prop :=
  item_properties s' = item_properties s ∧ cwd s' = cwd s ∧
  files s' = files s ∧ locked s' = locked s ∧
  sg_online s' = sg_online s ∧ sg_entities s' = sg_entities s ∧
  log s' = log s.

(** What a run of the loop of [publish] leaves alone. *)
Definition same_setting (s s' : State) : Prop :=
  item_properties s' = item_properties s ∧ cwd s' = cwd s ∧
  locked s' = locked s ∧ sg_online s' = sg_online s.

(** The line [finalize] logs first. *)
Definition completion_record : LogRecord :=
  mkLog INFO "Version uploaded for Photoshop document"
    (Some (ActionShowInShotgun "Show Version" "Reveal the version in Shotgun." None)).

(** ** Sample inputs *)

Module Sample.

Definition layers3 : list Layer :=
  [ mkLayer "bg" (Some [1%Z]); mkLayer "fg" (Some [2%Z]);
    mkLayer "text" (Some [3%Z]) ].

Definition saved_doc : Document :=
  mkDocument "doc.psd" "[Document doc.psd]"
    (inr (Some (mkFileObject (inr (Some "/proj/shot/doc.psd"))))).

(** A document that was never saved: the host refuses [fullName]. *)
Definition unsaved_doc : Document :=
  mkDocument "Untitled-1" "[Document Untitled-1]"
    (inl (RuntimeError "The document has not yet been saved")).

(** A host read that is interrupted from the keyboard. *)
Definition interrupted_doc : Document :=
  mkDocument "doc.psd" "[Document doc.psd]" (inl KeyboardInterrupt).

Definition env : Env :=
  mkEnv ∅ "tk" (mkContext None (Some "proj")).

Definition world (props : gmap string PyVal) (fs : gmap string FileData) : State :=
  mkState props "/home/artist" fs ∅ true [] [] [].

Definition psd_on_disk (ls : list Layer) : gmap string FileData :=
  {[ "/proj/shot/doc.psd" := PsdFile ls ]}.

Definition with_saved_doc : State :=
  world {[ "document" := VDoc saved_doc ]} (psd_on_disk layers3).

Definition with_one_layer : State :=
  world {[ "document" := VDoc saved_doc ]}
        (psd_on_disk [mkLayer "bg" (Some [1%Z])]).

Definition with_no_layer : State :=
  world {[ "document" := VDoc saved_doc ]} (psd_on_disk []).

Definition with_unsaved_doc : State :=
  world {[ "document" := VDoc unsaved_doc ]} ∅.

Definition without_document : State := world ∅ ∅.

Definition after_publish (remove : PyVal) : State :=
  world (<[ "remove_upload" := remove ]>
           {[ "upload_path" := VStr "/tmp/upload.psd" ]})
        {[ "/tmp/upload.psd" := OtherFile ]}.

Definition upload_gone : State :=
  world (<[ "remove_upload" := VBool true ]>
           {[ "upload_path" := VStr "/tmp/upload.psd" ]}) ∅.

Definition never_published : State :=
  world {[ "document" := VDoc saved_doc ]} (psd_on_disk layers3).

End Sample.

(** ** Further observations *)

(** The file name [publish] hands to [save] for a layer. *)
Definition tiff_name (l : Layer) : string := layer_name l +:+ ".tiff".

(** The registration [publish] makes for a layer of the document at [p]. *)
Definition layer_publish (env : Env) (p : string) (l : Layer) : Publish :=
  mkPublish (publisher_sgtk env) (item_context env)
            (posixpath.join (posixpath.dirname p) (tiff_name l))
            (layer_name l) None "Rendered Image".

(** The line [publish] logs after saving a layer. *)
Definition saved_record (l : Layer) : LogRecord :=
  mkLog INFO ("Saved Layer " +:+ layer_name l +:+ ".psd") None.

(** Nothing but the calls and the log has changed. *)
Definition untouched (s s' : State) : Prop :=
  item_properties s' = item_properties s ∧ cwd s' = cwd s ∧
  files s' = files s ∧ locked s' = locked s ∧
  sg_online s' = sg_online s ∧ sg_entities s' = sg_entities s.

(** [hasattr(engine.apps["tk-multi-workfiles2"], "show_file_save_dlg")],
    false when the app is not configured. *)
Definition workfiles2_dialog (env : Env) : bool :=
  match engine_apps env !! "tk-multi-workfiles2" with
  | Some app => has_show_file_save_dlg app
  | None => false
  end.

(** Every file there was is still there. *)
Definition files_kept (s s' : State) : Prop := dom (files s) ⊆ dom (files s').

(** A computation that relates every state to the state it leaves. *)
Definition keeps (R : State → State → Prop) {A} (m : M A) : Prop :=
  ∀ s, R s (snd (m s)).

(** ['/' in s] *)
Fixpoint has_sep (s : string) : bool :=
  match s with
  | EmptyString => false
  | String c r => posixpath.is_sep c || has_sep r
  end.

Module Scenario.

(** The artist works in the directory of the document. *)
Definition beside_document (props : gmap string PyVal) (fs : gmap string FileData) : State :=
  mkState props "/proj/shot" fs ∅ true [] [] [].

(** A layer without pixels between two that have some. *)
Definition layers_with_gap : list Layer :=
  [ mkLayer "bg" (Some [1%Z]); mkLayer "empty" None; mkLayer "text" (Some [3%Z]) ].


Definition with_gap : State :=
  Sample.world {[ "document" := VDoc Sample.saved_doc ]}
               (Sample.psd_on_disk layers_with_gap).


Definition in_document_directory : State :=
  beside_document {[ "document" := VDoc Sample.saved_doc ]}
                  (Sample.psd_on_disk Sample.layers3).

(** The item asks for the upload to be removed once published. *)
Definition with_remove_upload : State :=
  Sample.world (<[ "remove_upload" := VBool true ]>
                  {[ "document" := VDoc Sample.saved_doc ]})
               (Sample.psd_on_disk Sample.layers3).

(** The document property holds something that is no document. *)
Definition with_string_document : State :=
  Sample.world {[ "document" := VStr "doc.psd" ]} ∅.

(** The document was saved but its file is gone. *)
Definition with_missing_file : State :=
  Sample.world {[ "document" := VDoc Sample.saved_doc ]} ∅.

(** The tracking server does not answer. *)
Definition offline : State :=
  mkState {[ "document" := VDoc Sample.saved_doc ]} "/home/artist"
          (Sample.psd_on_disk Sample.layers3) ∅ false [] [] [].

(** An engine with the file-save dialog app, and one whose app of that
    name lacks the dialog. *)
Definition env_with_dialog : Env :=
  mkEnv {[ "tk-multi-workfiles2" := mkApp true ]} "tk" (mkContext None (Some "proj")).

Definition env_without_dialog : Env :=
  mkEnv {[ "tk-multi-workfiles2" := mkApp false ]} "tk" (mkContext None (Some "proj")).

(** A removal that is interrupted from the keyboard. *)
Definition interrupted_remove (path : PyVal) : M unit := raise KeyboardInterrupt.

End Scenario.

(** * Properties *)

Local Open Scope list_scope.

Ltac py_unfold :=
  unfold bind, ret, raise, effect, ask, try_except, from_attr,
         logger_warn, logger_info, properties_get, properties_getitem,
         properties_setitem in *.

(** ** Path resolution *)

Lemma same_but_calls_refl s : same_but_calls s s.
Proof. by repeat split. Qed.

Lemma same_but_calls_add_call c s : same_but_calls s (add_call c s).
Proof. by repeat split. Qed.

Lemma same_but_calls_trans s1 s2 s3 :
  same_but_calls s1 s2 → same_but_calls s2 s3 → same_but_calls s1 s3.
Proof.
  unfold same_but_calls. intros (?&?&?&?&?&?&?) (?&?&?&?&?&?&?).
  repeat split; congruence.
Qed.

(** Reading the path only talks to the host. *)
Lemma read_fsName_frame document s :
  same_but_calls s (snd (read_fsName document s)).
Proof.
  unfold read_fsName, get_fullName, get_fsName.
  destruct document as [| b | p | d]; py_unfold; simpl;
    try apply same_but_calls_refl.
  destruct (fullName d) as [e | [f |]]; simpl;
    try apply same_but_calls_add_call.
  destruct (fsName f) as [e | p]; simpl;
    (eapply same_but_calls_trans; [apply same_but_calls_add_call |]);
    apply same_but_calls_add_call.
Qed.

(** Its outcome is decided by the document alone. *)
Lemma read_fsName_outcome document s s' :
  fst (read_fsName document s) = fst (read_fsName document s').
Proof.
  unfold read_fsName, get_fullName, get_fsName.
  destruct document as [| b | p | d]; py_unfold; simpl; try reflexivity.
  destruct (fullName d) as [e | [f |]]; simpl; try reflexivity.
  destruct (fsName f) as [e | p]; reflexivity.
Qed.

Lemma _document_path_unfold document s :
  _document_path document s =
    match read_fsName document s with
    | (Raised e, s') => if is_Exception e then (Normal VNone, s') else (Raised e, s')
    | r => r
    end.
Proof. reflexivity. Qed.

Lemma _document_path_frame document s :
  same_but_calls s (snd (_document_path document s)).
Proof.
  rewrite _document_path_unfold.
  pose proof (read_fsName_frame document s) as H.
  destruct (read_fsName document s) as [[v | e] s']; simpl in *; [done |].
  by destruct (is_Exception e).
Qed.

Lemma _document_path_outcome document s s' :
  fst (_document_path document s) = fst (_document_path document s').
Proof.
  rewrite !_document_path_unfold.
  pose proof (read_fsName_outcome document s s') as H.
  destruct (read_fsName document s) as [[v | e] s1],
           (read_fsName document s') as [[v' | e'] s1']; simpl in *;
    try congruence.
  injection H as ->. by destruct (is_Exception e').
Qed.

(** An exception outside [Exception] is not caught. *)
Lemma _document_path_propagates document s e :
  fst (read_fsName document s) = Raised e →
  is_Exception e = false →
  fst (_document_path document s) = Raised e.
Proof.
  intros Hr He. rewrite _document_path_unfold.
  destruct (read_fsName document s) as [[v | e'] s']; simpl in *; [done |].
  injection Hr as ->. by rewrite He.
Qed.

(** C4, as the code has it: when reading [document.fullName.fsName]
    raises an exception that is an instance of [Exception],
    [_document_path] returns [None] and nothing is raised; when the read
    succeeds, [_document_path] returns the path that was read. *)
Theorem document_path_swallows_Exception document s :
  (∀ e, fst (read_fsName document s) = Raised e →
        is_Exception e = true →
        fst (_document_path document s) = Normal VNone) ∧
  (∀ path, fst (read_fsName document s) = Normal path →
        fst (_document_path document s) = Normal path).
Proof.
  rewrite _document_path_unfold.
  destruct (read_fsName document s) as [[v | e'] s']; simpl; split;
    intros x Hx; try done.
  injection Hx as ->. by intros ->.
Qed.

Lemma document_path_swallows_Exception_witness :
  fst (_document_path (VDoc Sample.unsaved_doc) Sample.with_unsaved_doc) = Normal VNone ∧
  fst (_document_path (VDoc Sample.saved_doc) Sample.with_saved_doc)
    = Normal (VStr "/proj/shot/doc.psd").
Proof.
  split.
  - apply (proj1 (document_path_swallows_Exception
                    (VDoc Sample.unsaved_doc) Sample.with_unsaved_doc)
                 (RuntimeError "The document has not yet been saved"));
      reflexivity.
  - apply (proj2 (document_path_swallows_Exception
                    (VDoc Sample.saved_doc) Sample.with_saved_doc));
      reflexivity.
Defined.

(** C4, as the spec words it, fails: a read that raises
    [KeyboardInterrupt] is an exception raised by path resolution, and
    [_document_path] lets it through. *)
Lemma document_path_any_exception_counterexample :
  fst (read_fsName (VDoc Sample.interrupted_doc) Sample.without_document)
    = Raised KeyboardInterrupt ∧
  fst (_document_path (VDoc Sample.interrupted_doc) Sample.without_document)
    ≠ Normal VNone.
Proof. split; [reflexivity | discriminate]. Qed.

(** ** accept *)

(** C3: when the item's [document] property is absent or falsy, [accept]
    returns [{accepted: False}], logs one warning and nothing else, and
    makes no call at all, so no path is resolved. *)
Theorem accept_without_document env s :
  truthy (default VNone (item_properties s !! "document")) = false →
  fst (accept env s) = Normal {[ "accepted" := false ]} ∧
  log (snd (accept env s))
    = log s ++ [mkLog WARNING "Could not determine the document for item" None] ∧
  calls (snd (accept env s)) = calls s.
Proof.
  intros H. unfold accept. py_unfold. simpl. rewrite H. simpl. done.
Qed.

Lemma accept_without_document_witness :
  fst (accept Sample.env Sample.without_document) = Normal {[ "accepted" := false ]} ∧
  log (snd (accept Sample.env Sample.without_document))
    = [mkLog WARNING "Could not determine the document for item" None] ∧
  calls (snd (accept Sample.env Sample.without_document)) = [].
Proof.
  apply (accept_without_document Sample.env Sample.without_document).
  reflexivity.
Defined.

(** The action offered with the warning is always a "Save As..." button;
    only its callback depends on the apps the engine has. *)
Lemma _get_save_as_action_label env document :
  ∃ callback,
    _get_save_as_action env document
      = ActionButton "Save As..." "Save the current document" callback.
Proof. unfold _get_save_as_action. eauto. Qed.

Lemma accept_unsaved_run env s d path s1 :
  item_properties s !! "document" = Some (VDoc d) →
  _document_path (VDoc d) s = (Normal path, s1) →
  truthy path = false →
  accept env s =
    (Normal (<[ "accepted" := true ]> {[ "checked" := true ]}),
     add_log (mkLog INFO
                ("Photoshop 'Separate Layers' plugin accepted document: " +:+ doc_name d)
                None)
       (add_call (ReadName d)
          (add_log (mkLog WARNING
                      ("The Photoshop document '" +:+ doc_name d +:+ "' has not been saved.")
                      (Some (_get_save_as_action env (VDoc d))))
             (add_call (ReadName d) s1)))).
Proof.
  intros Hdoc Hpath Hfalsy.
  unfold accept, properties_get, ask. unfold bind at 1. rewrite Hdoc. simpl.
  unfold bind at 1. rewrite Hpath, Hfalsy. reflexivity.
Qed.

(** C8: when the item carries a document whose path does not resolve
    ([_document_path] gives a falsy value), [accept] logs a warning that
    carries the "Save As..." action, then the acceptance line, and
    returns [{accepted: True, checked: True}]. *)
Theorem accept_unsaved_document env s d path :
  item_properties s !! "document" = Some (VDoc d) →
  fst (_document_path (VDoc d) s) = Normal path →
  truthy path = false →
  fst (accept env s) = Normal (<[ "accepted" := true ]> {[ "checked" := true ]}) ∧
  (∃ callback,
     log (snd (accept env s))
       = log s ++
         [ mkLog WARNING
             ("The Photoshop document '" +:+ doc_name d +:+ "' has not been saved.")
             (Some (ActionButton "Save As..." "Save the current document" callback));
           mkLog INFO
             ("Photoshop 'Separate Layers' plugin accepted document: " +:+ doc_name d)
             None ]).
Proof.
  intros Hdoc Hpath Hfalsy.
  destruct (_get_save_as_action_label env (VDoc d)) as [cb Hcb].
  pose proof (_document_path_frame (VDoc d) s) as (_&_&_&_&_&_&Hlog).
  destruct (_document_path (VDoc d) s) as [o s1] eqn:Hrun. simpl in *. subst o.
  rewrite (accept_unsaved_run env s d path s1 Hdoc Hrun Hfalsy), Hcb.
  split; [reflexivity |]. exists cb. simpl. rewrite Hlog.
  by rewrite <- app_assoc.
Qed.

Lemma accept_unsaved_document_witness :
  fst (accept Sample.env Sample.with_unsaved_doc)
    = Normal (<[ "accepted" := true ]> {[ "checked" := true ]}) ∧
  (∃ callback,
     log (snd (accept Sample.env Sample.with_unsaved_doc))
       = [] ++
         [ mkLog WARNING
             "The Photoshop document 'Untitled-1' has not been saved."
             (Some (ActionButton "Save As..." "Save the current document" callback));
           mkLog INFO
             "Photoshop 'Separate Layers' plugin accepted document: Untitled-1"
             None ]).
Proof.
  apply (accept_unsaved_document Sample.env Sample.with_unsaved_doc
           Sample.unsaved_doc VNone); reflexivity.
Defined.

(** ** finalize *)

(** [os.remove] records its call, logs nothing, raises only instances of
    [Exception], and leaves the files alone when it raises. *)
Ltac raised_case :=
  split; [done | split; [done | intros ? [= <-]; done]].

Lemma os_remove_run path s :
  calls (snd (os_remove path s)) = calls s ++ [OsRemove path] ∧
  log (snd (os_remove path s)) = log s ∧
  ∀ e, fst (os_remove path s) = Raised e →
       is_Exception e = true ∧ files (snd (os_remove path s)) = files s.
Proof.
  unfold os_remove. py_unfold. simpl.
  destruct path as [| b | p | d]; simpl; try raised_case.
  destruct (posixpath.is_empty p); simpl; [raised_case |].
  destruct (decide _); simpl; [raised_case |].
  destruct (files s !! _); simpl; [| raised_case].
  split; [done | split; [done | intros e [=]]].
Qed.

(** Logging does not change what [os.remove] does. *)
Lemma os_remove_add_log path r s :
  os_remove path (add_log r s) =
    (fst (os_remove path s), add_log r (snd (os_remove path s))).
Proof.
  unfold os_remove. py_unfold. simpl.
  destruct path as [| b | p | d]; simpl; try reflexivity.
  destruct (posixpath.is_empty p); simpl; [reflexivity |].
  unfold resolve; simpl.
  destruct (decide _); simpl; [reflexivity |].
  destruct (files s !! _); reflexivity.
Qed.

Lemma finalize_unfold env s :
  finalize env s =
    match item_properties s !! "upload_path" with
    | None => (Raised (KeyError "upload_path"), add_log completion_record s)
    | Some upload_path =>
        if truthy (default (VBool false) (item_properties s !! "remove_upload"))
        then try_except
               (os_remove upload_path)
               (logger_warn ("Unable to remove temp file: " +:+ py_str upload_path) None)
               (add_log completion_record s)
        else (Normal tt, add_log completion_record s)
    end.
Proof.
  unfold finalize. py_unfold. simpl.
  destruct (item_properties s !! "upload_path"); [| reflexivity].
  destruct (truthy _); reflexivity.
Qed.

(** C10: [upload_path] is read before [remove_upload] is looked at, so on
    an item without [upload_path] [finalize] raises [KeyError] whatever
    [remove_upload] holds; nothing is removed. *)
Theorem finalize_without_upload_path env s :
  item_properties s !! "upload_path" = None →
  fst (finalize env s) = Raised (KeyError "upload_path") ∧
  calls (snd (finalize env s)) = calls s ∧
  files (snd (finalize env s)) = files s.
Proof. intros H. rewrite finalize_unfold, H. done. Qed.

Lemma finalize_without_upload_path_witness :
  fst (finalize Sample.env Sample.never_published) = Raised (KeyError "upload_path") ∧
  calls (snd (finalize Sample.env Sample.never_published)) = [] ∧
  files (snd (finalize Sample.env Sample.never_published))
    = Sample.psd_on_disk Sample.layers3.
Proof.
  apply (finalize_without_upload_path Sample.env Sample.never_published).
  reflexivity.
Defined.

(** C7: when [remove_upload] is unset or falsy, [finalize] removes
    nothing: it makes no call and the files are as before, whether or not
    it raises. *)
Theorem finalize_keeps_files env s :
  truthy (default (VBool false) (item_properties s !! "remove_upload")) = false →
  files (snd (finalize env s)) = files s ∧
  calls (snd (finalize env s)) = calls s.
Proof.
  intros H. rewrite finalize_unfold, H.
  by destruct (item_properties s !! "upload_path").
Qed.

Lemma finalize_keeps_files_witness :
  files (snd (finalize Sample.env (Sample.after_publish (VBool false))))
    = {[ "/tmp/upload.psd" := OtherFile ]} ∧
  calls (snd (finalize Sample.env (Sample.after_publish (VBool false)))) = [].
Proof.
  apply (finalize_keeps_files Sample.env (Sample.after_publish (VBool false))).
  reflexivity.
Defined.

Lemma os_remove_success p s data :
  posixpath.is_empty p = false →
  resolve s p ∉ locked s →
  files s !! resolve s p = Some data →
  os_remove (VStr p) s
    = (Normal tt, set_files (delete (resolve s p)) (add_call (OsRemove (VStr p)) s)).
Proof.
  intros Hp Hfree Hfile. unfold os_remove. py_unfold. simpl. rewrite Hp.
  unfold resolve in *. simpl.
  destruct (decide _); [done |]. by rewrite Hfile.
Qed.

(** C6: when [remove_upload] is truthy (and [upload_path] is there to be
    read), [finalize] calls [os.remove] on [upload_path] once and returns
    without raising.  If the removal raises, the files are untouched and a
    warning naming the path is logged after the completion line.  If the
    file is there and can be removed, it is deleted: the files afterwards
    are the files before without that one, and no warning is logged. *)
Theorem finalize_removes_upload env s upload_path :
  item_properties s !! "upload_path" = Some upload_path →
  truthy (default (VBool false) (item_properties s !! "remove_upload")) = true →
  fst (finalize env s) = Normal tt ∧
  calls (snd (finalize env s)) = calls s ++ [OsRemove upload_path] ∧
  (∀ e, fst (os_remove upload_path s) = Raised e →
        log (snd (finalize env s))
          = log s ++ [ completion_record;
                       mkLog WARNING
                         ("Unable to remove temp file: " +:+ py_str upload_path) None ] ∧
        files (snd (finalize env s)) = files s) ∧
  (∀ p data, upload_path = VStr p →
        posixpath.is_empty p = false →
        resolve s p ∉ locked s →
        files s !! resolve s p = Some data →
        files (snd (finalize env s)) = delete (resolve s p) (files s) ∧
        log (snd (finalize env s)) = log s ++ [completion_record]).
Proof.
  intros Hp Hr. rewrite finalize_unfold, Hp, Hr.
  unfold try_except. rewrite os_remove_add_log.
  destruct (os_remove_run upload_path s) as (Hcalls & Hlog & Hexc).
  split; [| split; [| split]].
  - destruct (os_remove upload_path s) as [[[] | e] s1]; simpl in *; [done |].
    by destruct (Hexc e eq_refl) as [-> _].
  - destruct (os_remove upload_path s) as [[[] | e] s1]; simpl in *; [done |].
    by destruct (Hexc e eq_refl) as [-> _].
  - intros e He.
    destruct (os_remove upload_path s) as [[[] | e'] s1]; simpl in *; [done |].
    injection He as ->. destruct (Hexc e eq_refl) as [-> Hfiles]. simpl.
    split; [| done]. rewrite Hlog. by rewrite <- app_assoc.
  - intros p data -> Hne Hfree Hfile.
    by rewrite (os_remove_success p s data Hne Hfree Hfile).
Qed.

Lemma finalize_removes_upload_witness :
  (fst (finalize Sample.env Sample.upload_gone) = Normal tt ∧
   calls (snd (finalize Sample.env Sample.upload_gone))
     = [OsRemove (VStr "/tmp/upload.psd")] ∧
   log (snd (finalize Sample.env Sample.upload_gone))
     = [ completion_record;
         mkLog WARNING "Unable to remove temp file: /tmp/upload.psd" None ] ∧
   files (snd (finalize Sample.env Sample.upload_gone)) = ∅) ∧
  (fst (finalize Sample.env (Sample.after_publish (VBool true))) = Normal tt ∧
   calls (snd (finalize Sample.env (Sample.after_publish (VBool true))))
     = [OsRemove (VStr "/tmp/upload.psd")] ∧
   files (snd (finalize Sample.env (Sample.after_publish (VBool true))))
     = delete "/tmp/upload.psd" {[ "/tmp/upload.psd" := OtherFile ]} ∧
   files (snd (finalize Sample.env (Sample.after_publish (VBool true))))
     !! "/tmp/upload.psd" = None ∧
   log (snd (finalize Sample.env (Sample.after_publish (VBool true))))
     = [completion_record]).
Proof.
  split.
  - destruct (finalize_removes_upload Sample.env Sample.upload_gone
                (VStr "/tmp/upload.psd") eq_refl eq_refl)
      as (Hret & Hcalls & Hraised & _).
    destruct (Hraised (OSError "/tmp/upload.psd") eq_refl) as [Hlog Hfiles].
    exact (conj Hret (conj Hcalls (conj Hlog Hfiles))).
  - destruct (finalize_removes_upload Sample.env (Sample.after_publish (VBool true))
                (VStr "/tmp/upload.psd") eq_refl eq_refl)
      as (Hret & Hcalls & _ & Hremoved).
    destruct (Hremoved "/tmp/upload.psd" OtherFile eq_refl eq_refl
                (not_elem_of_empty (C:=gset string) _) eq_refl) as [Hfiles Hlog].
    split; [exact Hret |]. split; [exact Hcalls |]. split; [exact Hfiles |].
    split; [| exact Hlog]. rewrite Hfiles. apply lookup_delete_eq.
Defined.

(** ** Running a sequence *)

Lemma bind_normal {A B} (m : M A) (k : A → M B) s a s1 :
  m s = (Normal a, s1) → bind m k s = k a s1.
Proof. unfold bind. by intros ->. Qed.

(** ** The decode library *)

Lemma PSDImage_open_frame path s :
  same_but_calls s (snd (PSDImage_open path s)).
Proof.
  unfold PSDImage_open. py_unfold. simpl.
  destruct path as [| b | p | d]; simpl; try apply same_but_calls_add_call.
  destruct (posixpath.is_empty p); simpl; [apply same_but_calls_add_call |].
  destruct (files s !! _) as [[] |]; apply same_but_calls_add_call.
Qed.

(** What [open] yields is decided by the working directory and the files. *)
Lemma PSDImage_open_outcome path s s' :
  cwd s' = cwd s → files s' = files s →
  fst (PSDImage_open path s') = fst (PSDImage_open path s).
Proof.
  intros Hcwd Hfiles. unfold PSDImage_open. py_unfold. simpl.
  destruct path as [| b | p | d]; simpl; try reflexivity.
  destruct (posixpath.is_empty p); simpl; [reflexivity |].
  unfold resolve. simpl. rewrite Hcwd, Hfiles.
  by destruct (files s !! _) as [[] |].
Qed.

Ltac no_registration :=
  simpl; unfold registrations, saves; rewrite ?omap_app; simpl;
  rewrite ?app_nil_r; try done.

Lemma read_fsName_registrations document s :
  registrations (calls (snd (read_fsName document s))) = registrations (calls s) ∧
  saves (calls (snd (read_fsName document s))) = saves (calls s).
Proof.
  unfold read_fsName, get_fullName, get_fsName.
  destruct document as [| b | p | d]; py_unfold; simpl; try done.
  destruct (fullName d) as [e | [f |]]; simpl; try (by no_registration).
  destruct (fsName f) as [e | p]; by no_registration.
Qed.

Lemma _document_path_registrations document s :
  registrations (calls (snd (_document_path document s))) = registrations (calls s) ∧
  saves (calls (snd (_document_path document s))) = saves (calls s).
Proof.
  rewrite _document_path_unfold.
  pose proof (read_fsName_registrations document s) as H.
  destruct (read_fsName document s) as [[v | e] s']; simpl in *; [done |].
  by destruct (is_Exception e).
Qed.

Lemma PSDImage_open_registrations path s :
  registrations (calls (snd (PSDImage_open path s))) = registrations (calls s) ∧
  saves (calls (snd (PSDImage_open path s))) = saves (calls s).
Proof.
  unfold PSDImage_open. py_unfold. simpl.
  destruct path as [| b | p | d]; try (by no_registration).
  destruct (posixpath.is_empty p); [by no_registration |].
  simpl. destruct (files s !! _) as [[] |]; by no_registration.
Qed.

(** ** validate *)

Lemma for_each_info (f : Layer → string) ls s :
  fst (for_each ls (λ l, logger_info (f l) None) s) = Normal tt ∧
  log (snd (for_each ls (λ l, logger_info (f l) None) s))
    = log s ++ map (λ l, mkLog INFO (f l) None) ls.
Proof.
  revert s. induction ls as [| l ls IH]; intros s; simpl.
  - by rewrite app_nil_r.
  - rewrite (bind_normal _ _ s tt (add_log (mkLog INFO (f l) None) s) eq_refl).
    destruct (IH (add_log (mkLog INFO (f l) None) s)) as [-> ->].
    simpl. by rewrite <- app_assoc.
Qed.

(** C5: once the document opens through the decode library, [validate]
    returns [True] whatever the layers are, and logs exactly one
    informational line per layer, in order; with no layer it logs none. *)
Theorem validate_accepts_opened_document env s document path ls :
  item_properties s !! "document" = Some document →
  fst (_document_path document s) = Normal path →
  fst (PSDImage_open path s) = Normal ls →
  fst (validate env s) = Normal true ∧
  log (snd (validate env s))
    = log s ++ map (λ l, mkLog INFO ("Validated " +:+ layer_name l +:+ ".psd") None) ls.
Proof.
  intros Hdoc Hpath Hopen.
  pose proof (_document_path_frame document s) as (_ & Hcwd & Hfiles &_&_&_& Hlog1).
  destruct (_document_path document s) as [o1 s1] eqn:E1. simpl in *. subst o1.
  pose proof (PSDImage_open_frame path s1) as (_&_&_&_&_&_& Hlog2).
  pose proof (PSDImage_open_outcome path s s1 Hcwd Hfiles) as Hopen1.
  rewrite Hopen in Hopen1.
  destruct (PSDImage_open path s1) as [o2 s2] eqn:E2. simpl in *. subst o2.
  destruct (for_each_info (λ l, "Validated " +:+ layer_name l +:+ ".psd") ls s2)
    as [Hloop Hlog3].
  unfold validate.
  rewrite (bind_normal _ _ s document s); [| unfold properties_getitem; by rewrite Hdoc].
  rewrite (bind_normal _ _ s path s1 E1), (bind_normal _ _ s1 ls s2 E2).
  destruct (for_each ls _ s2) as [o3 s3] eqn:E3. simpl in *. subst o3.
  rewrite (bind_normal _ _ s2 tt s3 E3). simpl.
  split; [done |]. by rewrite Hlog3, Hlog2, Hlog1.
Qed.

Lemma validate_accepts_opened_document_witness :
  (fst (validate Sample.env Sample.with_no_layer) = Normal true ∧
   log (snd (validate Sample.env Sample.with_no_layer)) = [] ++ []) ∧
  (fst (validate Sample.env Sample.with_saved_doc) = Normal true ∧
   log (snd (validate Sample.env Sample.with_saved_doc))
     = [] ++ [ mkLog INFO "Validated bg.psd" None;
               mkLog INFO "Validated fg.psd" None;
               mkLog INFO "Validated text.psd" None ]).
Proof.
  split.
  - apply (validate_accepts_opened_document Sample.env Sample.with_no_layer
             (VDoc Sample.saved_doc) (VStr "/proj/shot/doc.psd") []);
      reflexivity.
  - apply (validate_accepts_opened_document Sample.env Sample.with_saved_doc
             (VDoc Sample.saved_doc) (VStr "/proj/shot/doc.psd") Sample.layers3);
      reflexivity.
Defined.

(** ** publish *)

Lemma same_setting_refl s : same_setting s s.
Proof. by repeat split. Qed.

Lemma same_setting_trans s1 s2 s3 :
  same_setting s1 s2 → same_setting s2 s3 → same_setting s1 s3.
Proof.
  unfold same_setting. intros (?&?&?&?) (?&?&?&?). repeat split; congruence.
Qed.

(** One turn of the loop, when it goes through: the image is saved under
    the bare file name, one line is logged, one registration is made. *)
Lemma publish_layer_normal env p layer s s' :
  publish_layer env (VStr p) layer s = (Normal tt, s') →
  ∃ img,
    layer_compose layer = Some img ∧
    s' = add_entity
           (mkPublish (publisher_sgtk env) (item_context env)
              (posixpath.join (posixpath.dirname p) (layer_name layer +:+ ".tiff"))
              (layer_name layer) None "Rendered Image")
           (add_call
              (RegisterPublish
                 (mkPublish (publisher_sgtk env) (item_context env)
                    (posixpath.join (posixpath.dirname p) (layer_name layer +:+ ".tiff"))
                    (layer_name layer) None "Rendered Image"))
              (add_log (mkLog INFO ("Saved Layer " +:+ layer_name layer +:+ ".psd") None)
                 (set_files
                    (insert (resolve s (layer_name layer +:+ ".tiff")) (ImageFile img))
                    (add_call (ImageSave (layer_name layer +:+ ".tiff")) s)))).
Proof.
  unfold publish_layer, Image_save, os_path_dirname, register_publish.
  destruct (layer_compose layer) as [img |]; py_unfold; simpl; [| done].
  unfold resolve; simpl.
  destruct (decide _); simpl; [done |].
  destruct (sg_online s); simpl; [| done].
  intros [= <-]. by exists img.
Qed.

(** One turn of the loop goes through when the layer has pixels, the
    target can be written and the tracking server answers. *)
Lemma publish_layer_total env p layer s :
  is_Some (layer_compose layer) →
  resolve s (layer_name layer +:+ ".tiff") ∉ locked s →
  sg_online s = true →
  fst (publish_layer env (VStr p) layer s) = Normal tt.
Proof.
  intros [img Himg] Hfree Hup.
  unfold publish_layer, Image_save, os_path_dirname, register_publish.
  rewrite Himg. py_unfold. simpl. unfold resolve in *. simpl.
  destruct (decide _); simpl; [done |]. by rewrite Hup.
Qed.

(** Whatever happens in a turn, the item's properties, the working
    directory, the write protection and the server are as before. *)
Lemma publish_layer_setting env path layer s :
  same_setting s (snd (publish_layer env path layer s)).
Proof.
  unfold publish_layer, Image_save, os_path_dirname, register_publish.
  destruct (layer_compose layer) as [img |]; py_unfold; simpl;
    [| apply same_setting_refl].
  destruct (decide _); simpl; [by repeat split |].
  destruct path as [| b | p | d]; simpl; try by repeat split.
  destruct (sg_online s); by repeat split.
Qed.

Lemma for_each_setting {A} (body : A → M unit) xs :
  (∀ x s, same_setting s (snd (body x s))) →
  ∀ s, same_setting s (snd (for_each xs body s)).
Proof.
  intros Hbody. induction xs as [| x xs IH]; intros s; simpl.
  - apply same_setting_refl.
  - unfold bind. pose proof (Hbody x s) as Hx.
    destruct (body x s) as [[[] | e] s1]; simpl in *; [| done].
    eapply same_setting_trans; [exact Hx | apply IH].
Qed.

(** The loop of [publish], when it returns: the registrations are those
    of the layers, one each, in order, and the saves are under the bare
    file names. *)
Lemma publish_loop_normal env p ls :
  ∀ s s',
    for_each ls (publish_layer env (VStr p)) s = (Normal tt, s') →
    registrations (calls s')
      = registrations (calls s) ++
        map (λ l, mkPublish (publisher_sgtk env) (item_context env)
                    (posixpath.join (posixpath.dirname p) (layer_name l +:+ ".tiff"))
                    (layer_name l) None "Rendered Image") ls ∧
    sg_entities s'
      = sg_entities s ++
        map (λ l, mkPublish (publisher_sgtk env) (item_context env)
                    (posixpath.join (posixpath.dirname p) (layer_name l +:+ ".tiff"))
                    (layer_name l) None "Rendered Image") ls ∧
    saves (calls s') = saves (calls s) ++ map (λ l, layer_name l +:+ ".tiff") ls.
Proof.
  induction ls as [| l ls IH]; intros s s'; simpl.
  - intros [= <-]. by rewrite !app_nil_r.
  - unfold bind at 1.
    destruct (publish_layer env (VStr p) l s) as [[[] | e] s1] eqn:E1; [| done].
    intros Hrest. apply IH in Hrest as (Hreg & Hent & Hsav).
    apply publish_layer_normal in E1 as (img & _ & ->).
    rewrite Hreg, Hent, Hsav. simpl.
    unfold registrations, saves. rewrite !omap_app. simpl.
    rewrite !app_nil_r, <- !app_assoc. done.
Qed.

(** The loop returns when every turn can go through. *)
Lemma publish_loop_total env p ls :
  ∀ s,
    sg_online s = true →
    Forall (λ l, is_Some (layer_compose l) ∧
                 resolve s (layer_name l +:+ ".tiff") ∉ locked s) ls →
    fst (for_each ls (publish_layer env (VStr p)) s) = Normal tt.
Proof.
  induction ls as [| l ls IH]; intros s Hup Hall; simpl; [done |].
  inversion Hall as [| ? ? [Hpix Hfree] Hrest]; subst.
  pose proof (publish_layer_total env p l s Hpix Hfree Hup) as Hl.
  pose proof (publish_layer_setting env (VStr p) l s) as (_ & Hcwd & Hlocked & Honline).
  unfold bind.
  destruct (publish_layer env (VStr p) l s) as [o s1]. simpl in *. subst o.
  apply IH; [congruence |].
  eapply Forall_impl; [exact Hrest |]. intros l' [? ?]. split; [done |].
  unfold resolve in *. by rewrite Hcwd, Hlocked.
Qed.

Lemma publish_unfold env s document path s1 :
  item_properties s !! "document" = Some document →
  _document_path document s = (Normal path, s1) →
  publish env s =
    bind (PSDImage_open path) (λ ls, for_each ls (publish_layer env path))
         (set_properties (insert "upload_path" path) s1).
Proof.
  intros Hdoc Hpath. unfold publish.
  rewrite (bind_normal _ _ s document s); [| unfold properties_getitem; by rewrite Hdoc].
  rewrite (bind_normal _ _ s path s1 Hpath).
  by rewrite (bind_normal _ _ s1 tt (set_properties (insert "upload_path" path) s1)).
Qed.

(** C9: [publish] resolves the path with [_document_path] and stores it
    under [upload_path] before it opens the document: whatever happens
    from the opening on, raise or return, at the end [upload_path] holds
    the resolved path. *)
Theorem publish_stores_upload_path env s document path :
  item_properties s !! "document" = Some document →
  fst (_document_path document s) = Normal path →
  item_properties (snd (publish env s)) !! "upload_path" = Some path.
Proof.
  intros Hdoc Hpath.
  destruct (_document_path document s) as [o1 s1] eqn:E1. simpl in *. subst o1.
  rewrite (publish_unfold env s document path s1 Hdoc E1).
  set (s2 := set_properties (insert "upload_path" path) s1).
  pose proof (PSDImage_open_frame path s2) as (Hprops &_).
  unfold bind.
  destruct (PSDImage_open path s2) as [[ls | e] s3]; simpl in *.
  - pose proof (for_each_setting (publish_layer env path) ls
                  (publish_layer_setting env path) s3) as (Hloop &_).
    rewrite Hloop, Hprops. apply lookup_insert_eq.
  - rewrite Hprops. apply lookup_insert_eq.
Qed.

Lemma publish_stores_upload_path_witness :
  item_properties (snd (publish Sample.env Sample.with_saved_doc)) !! "upload_path"
    = Some (VStr "/proj/shot/doc.psd").
Proof.
  apply (publish_stores_upload_path Sample.env Sample.with_saved_doc
           (VDoc Sample.saved_doc) (VStr "/proj/shot/doc.psd")); reflexivity.
Defined.

(** The four ways a turn of the loop can end. *)
Lemma publish_layer_cases env p layer s :
  (layer_compose layer = None ∧
   publish_layer env (VStr p) layer s = (Raised (AttributeError "save"), s)) ∨
  (∃ img, layer_compose layer = Some img ∧
     resolve s (tiff_name layer) ∈ locked s ∧
     publish_layer env (VStr p) layer s
       = (Raised (IOError (tiff_name layer)), add_call (ImageSave (tiff_name layer)) s)) ∨
  (∃ img, layer_compose layer = Some img ∧
     (resolve s (tiff_name layer) ∉ locked s) ∧ sg_online s = false ∧
     publish_layer env (VStr p) layer s
       = (Raised ShotgunError,
          add_call (RegisterPublish (layer_publish env p layer))
            (add_log (saved_record layer)
               (set_files (insert (resolve s (tiff_name layer)) (ImageFile img))
                  (add_call (ImageSave (tiff_name layer)) s))))) ∨
  (∃ img, layer_compose layer = Some img ∧
     (resolve s (tiff_name layer) ∉ locked s) ∧ sg_online s = true ∧
     publish_layer env (VStr p) layer s
       = (Normal tt,
          add_entity (layer_publish env p layer)
            (add_call (RegisterPublish (layer_publish env p layer))
               (add_log (saved_record layer)
                  (set_files (insert (resolve s (tiff_name layer)) (ImageFile img))
                     (add_call (ImageSave (tiff_name layer)) s)))))).
Proof.
  unfold publish_layer, Image_save, os_path_dirname, register_publish,
         layer_publish, saved_record, tiff_name.
  destruct (layer_compose layer) as [img |]; py_unfold; simpl; [| by left].
  right. unfold resolve. simpl.
  destruct (decide _) as [Hin | Hout]; simpl.
  - left. by exists img.
  - right. destruct (sg_online s) eqn:Hup; simpl.
    + right. by exists img.
    + left. by exists img.
Qed.





(** Under the same reading, whenever [publish] returns, the names handed
    to [save] are the bare [name + ".tiff"], without the directory of the
    document. *)
Lemma publish_saves_bare_names env s document p ls :
  item_properties s !! "document" = Some document →
  fst (_document_path document s) = Normal (VStr p) →
  fst (PSDImage_open (VStr p) s) = Normal ls →
  fst (publish env s) = Normal tt →
  saves (calls (snd (publish env s)))
    = saves (calls s) ++ map (λ l, layer_name l +:+ ".tiff") ls.
Proof.
  intros Hdoc Hpath Hopen.
  pose proof (_document_path_frame document s) as (_ & Hcwd1 & Hfiles1 & _).
  pose proof (_document_path_registrations document s) as [_ Hsav1].
  destruct (_document_path document s) as [o1 s1] eqn:E1. simpl in *. subst o1.
  rewrite (publish_unfold env s document (VStr p) s1 Hdoc E1).
  set (s2 := set_properties (insert "upload_path" (VStr p)) s1).
  pose proof (PSDImage_open_registrations (VStr p) s2) as [_ Hsav2].
  pose proof (PSDImage_open_outcome (VStr p) s s2 Hcwd1 Hfiles1) as Hopen2.
  rewrite Hopen in Hopen2.
  destruct (PSDImage_open (VStr p) s2) as [o2 s3] eqn:E2. simpl in *. subst o2.
  rewrite (bind_normal _ _ s2 ls s3 E2).
  destruct (for_each ls (publish_layer env (VStr p)) s3) as [o s4] eqn:E3.
  simpl. intros ->.
  apply publish_loop_normal in E3 as (_ & _ & Hsav).
  by rewrite Hsav, Hsav2, Hsav1.
Qed.

(** C1 does not hold of the code.  The document is
    [/proj/shot/doc.psd] with one layer [bg], and the process runs in
    [/home/artist]: [publish] hands [save] the bare name [bg.tiff], the
    image lands in the working directory, nothing is written beside the
    document, and the path registered is one where no file is. *)
Theorem publish_saves_in_working_directory :
  fst (publish Sample.env Sample.with_one_layer) = Normal tt ∧
  saves (calls (snd (publish Sample.env Sample.with_one_layer))) = ["bg.tiff"] ∧
  files (snd (publish Sample.env Sample.with_one_layer)) !! "/home/artist/bg.tiff"
    = Some (ImageFile [1%Z]) ∧
  files (snd (publish Sample.env Sample.with_one_layer)) !! "/proj/shot/bg.tiff"
    = None ∧
  map rp_path (sg_entities (snd (publish Sample.env Sample.with_one_layer)))
    = ["/proj/shot/bg.tiff"].
Proof. vm_compute. done. Qed.

(** * Beyond the lifecycle contract *)

(** ** What a sequence keeps *)

Section Keeps.

Variable R : State → State → Prop.
Hypothesis R_refl : ∀ s, R s s.
Hypothesis R_trans : ∀ s1 s2 s3, R s1 s2 → R s2 s3 → R s1 s3.

Lemma keeps_ret {A} (a : A) : keeps R (ret a).
Proof. intros s. apply R_refl. Qed.

Lemma keeps_raise {A} (e : exn) : keeps R (@raise A e).
Proof. intros s. apply R_refl. Qed.

Lemma keeps_ask {A} (f : State → A) : keeps R (ask f).
Proof. intros s. apply R_refl. Qed.

Lemma keeps_bind {A B} (m : M A) (k : A → M B) :
  keeps R m → (∀ a, keeps R (k a)) → keeps R (bind m k).
Proof.
  intros Hm Hk s. unfold bind. specialize (Hm s).
  destruct (m s) as [[a | e] s1]; simpl in *; [| done].
  eapply R_trans; [exact Hm | apply Hk].
Qed.

Lemma keeps_try_except {A} (m h : M A) :
  keeps R m → keeps R h → keeps R (try_except m h).
Proof.
  intros Hm Hh s. unfold try_except. specialize (Hm s).
  destruct (m s) as [[a | e] s1]; simpl in *; [done |].
  destruct (is_Exception e); [| done].
  eapply R_trans; [exact Hm | apply Hh].
Qed.

Lemma keeps_for_each {A} (xs : list A) (body : A → M unit) :
  (∀ x, keeps R (body x)) → keeps R (for_each xs body).
Proof.
  intros Hbody. induction xs as [| x xs IH]; simpl.
  - apply keeps_ret.
  - apply keeps_bind; [apply Hbody | intros _; exact IH].
Qed.

Lemma keeps_from_attr {A} (a : Attr A) : keeps R (from_attr a).
Proof. destruct a; [apply keeps_raise | apply keeps_ret]. Qed.

End Keeps.

Lemma untouched_refl s : untouched s s.
Proof. by repeat split. Qed.

Lemma untouched_trans s1 s2 s3 :
  untouched s1 s2 → untouched s2 s3 → untouched s1 s3.
Proof.
  unfold untouched. intros (?&?&?&?&?&?) (?&?&?&?&?&?).
  repeat split; congruence.
Qed.

Lemma untouched_effect_log r : keeps untouched (effect (add_log r)).
Proof. intros s. by repeat split. Qed.

Lemma untouched_effect_call c : keeps untouched (effect (add_call c)).
Proof. intros s. by repeat split. Qed.

Lemma untouched_getitem key : keeps untouched (properties_getitem key).
Proof.
  intros s. unfold properties_getitem.
  destruct (item_properties s !! key); apply untouched_refl.
Qed.

Ltac keeps_step :=
  first
    [ apply (keeps_ret untouched untouched_refl)
    | apply (keeps_raise untouched untouched_refl)
    | apply (keeps_ask untouched untouched_refl)
    | apply (keeps_from_attr untouched untouched_refl)
    | apply untouched_effect_log
    | apply untouched_effect_call
    | apply untouched_getitem
    | apply (keeps_bind untouched untouched_trans); [| intros ?]
    | apply (keeps_try_except untouched untouched_trans)
    | apply (keeps_for_each untouched untouched_refl untouched_trans); intros ? ].

Lemma untouched_document_path document : keeps untouched (_document_path document).
Proof.
  unfold _document_path, read_fsName, get_fullName, get_fsName.
  apply (keeps_try_except untouched untouched_trans); [| keeps_step].
  apply (keeps_bind untouched untouched_trans).
  - destruct document; repeat keeps_step.
  - intros [f |]; repeat keeps_step.
Qed.

Lemma untouched_get_name document : keeps untouched (get_name document).
Proof. unfold get_name. destruct document; repeat keeps_step. Qed.

Lemma untouched_open path : keeps untouched (PSDImage_open path).
Proof.
  unfold PSDImage_open.
  apply (keeps_bind untouched untouched_trans); [keeps_step |].
  intros _. destruct path as [| b | p | d]; try keeps_step.
  destruct (posixpath.is_empty p); [keeps_step |].
  intros s. destruct (files s !! _) as [[] |]; apply untouched_refl.
Qed.

Lemma bind_normal_inv {A B} (m : M A) (k : A → M B) s b :
  fst (bind m k s) = Normal b →
  ∃ a s1, m s = (Normal a, s1) ∧ fst (k a s1) = Normal b.
Proof.
  unfold bind. destruct (m s) as [[a | e] s1]; simpl; [eauto | done].
Qed.

Lemma bind_raised {A B} (m : M A) (k : A → M B) s e s1 :
  m s = (Raised e, s1) → bind m k s = (Raised e, s1).
Proof. unfold bind. by intros ->. Qed.

(** ** accept, further *)

(** [accept] only reads: whatever it returns or raises, the item's
    properties, the files and the tracking system are as before. *)
Theorem accept_reads_only env s : untouched s (snd (accept env s)).
Proof.
  revert s. change (keeps untouched (accept env)). unfold accept, properties_get.
  keeps_step; [keeps_step |].
  destruct (negb (truthy a)).
  - unfold logger_warn. repeat keeps_step.
  - keeps_step; [apply untouched_document_path |].
    keeps_step.
    + destruct (negb (truthy a0)); [| keeps_step].
      keeps_step; [apply untouched_get_name |].
      unfold logger_warn. keeps_step.
    + keeps_step; [apply untouched_get_name |].
      unfold logger_info. repeat keeps_step.
Qed.

(** When [accept] returns, [accepted] tells whether the [document]
    property was truthy, and [checked] is present only then. *)
Theorem accept_result env s r :
  fst (accept env s) = Normal r →
  r = if truthy (default VNone (item_properties s !! "document"))
      then <[ "accepted" := true ]> {[ "checked" := true ]}
      else {[ "accepted" := false ]}.
Proof.
  unfold accept. intros H.
  apply bind_normal_inv in H as (document & s0 & Hget & H).
  unfold properties_get, ask in Hget. injection Hget as <- <-.
  destruct (truthy (default VNone (item_properties s !! "document"))); simpl in H.
  - apply bind_normal_inv in H as (path & s1 & _ & H).
    apply bind_normal_inv in H as ([] & s2 & _ & H).
    apply bind_normal_inv in H as (n & s3 & _ & H).
    apply bind_normal_inv in H as ([] & s4 & _ & H).
    by injection H as <-.
  - by injection H as <-.
Qed.

Lemma accept_result_witness :
  fst (accept Sample.env Sample.without_document) = Normal {[ "accepted" := false ]} ∧
  ({[ "accepted" := false ]} : gmap string bool)
    = if truthy (default VNone (item_properties Sample.without_document !! "document"))
      then <[ "accepted" := true ]> {[ "checked" := true ]}
      else {[ "accepted" := false ]}.
Proof.
  split; [reflexivity |].
  apply (accept_result Sample.env Sample.without_document). reflexivity.
Defined.

(** For a document whose path resolves to a truthy value, [accept]
    logs the acceptance line alone, without any warning, and returns
    [{accepted: True, checked: True}]. *)
Theorem accept_saved_document env s d path :
  item_properties s !! "document" = Some (VDoc d) →
  fst (_document_path (VDoc d) s) = Normal path →
  truthy path = true →
  fst (accept env s) = Normal (<[ "accepted" := true ]> {[ "checked" := true ]}) ∧
  log (snd (accept env s))
    = log s ++
      [ mkLog INFO
          ("Photoshop 'Separate Layers' plugin accepted document: " +:+ doc_name d)
          None ].
Proof.
  intros Hdoc Hpath Htrue.
  pose proof (_document_path_frame (VDoc d) s) as (_&_&_&_&_&_&Hlog).
  destruct (_document_path (VDoc d) s) as [o s1] eqn:Hrun. simpl in *. subst o.
  assert (accept env s =
          (Normal (<[ "accepted" := true ]> {[ "checked" := true ]}),
           add_log (mkLog INFO
                      ("Photoshop 'Separate Layers' plugin accepted document: "
                         +:+ doc_name d) None)
             (add_call (ReadName d) s1))) as ->.
  { unfold accept, properties_get, ask. unfold bind at 1. rewrite Hdoc. simpl.
    unfold bind at 1. rewrite Hrun, Htrue. reflexivity. }
  simpl. by rewrite Hlog.
Qed.

Lemma accept_saved_document_witness :
  fst (accept Sample.env Sample.with_saved_doc)
    = Normal (<[ "accepted" := true ]> {[ "checked" := true ]}) ∧
  log (snd (accept Sample.env Sample.with_saved_doc))
    = [] ++ [ mkLog INFO
                "Photoshop 'Separate Layers' plugin accepted document: doc.psd" None ].
Proof.
  apply (accept_saved_document Sample.env Sample.with_saved_doc
           Sample.saved_doc (VStr "/proj/shot/doc.psd")); reflexivity.
Defined.

(** A truthy [document] property that is not a host document (a string,
    [True]) passes the first test of [accept]; its path resolves to [None]
    because the failed attribute read is swallowed, and [accept] then
    raises [AttributeError] on [document.name] before anything is logged. *)
Theorem accept_not_a_document env s v :
  item_properties s !! "document" = Some v →
  truthy v = true →
  (∀ d, v ≠ VDoc d) →
  accept env s = (Raised (AttributeError "name"), s).
Proof.
  intros Hdoc Htrue Hnot.
  unfold accept, properties_get, ask. unfold bind at 1. rewrite Hdoc. simpl.
  rewrite Htrue. simpl.
  destruct v as [| b | p | d]; try done; by destruct (Hnot d).
Qed.

Lemma accept_not_a_document_witness :
  accept Sample.env Scenario.with_string_document
    = (Raised (AttributeError "name"), Scenario.with_string_document).
Proof.
  apply (accept_not_a_document Sample.env Scenario.with_string_document
           (VStr "doc.psd")); [reflexivity | reflexivity | discriminate].
Defined.

(** ** Path resolution, further *)

(** For a value that is not a host document, [_document_path] returns
    [None] without any call to the host. *)
Theorem document_path_of_non_document v s :
  (∀ d, v ≠ VDoc d) → _document_path v s = (Normal VNone, s).
Proof. intros Hnot. destruct v as [| b | p | d]; try done. by destruct (Hnot d). Qed.

Lemma document_path_of_non_document_witness :
  _document_path VNone Sample.without_document = (Normal VNone, Sample.without_document).
Proof.
  apply (document_path_of_non_document VNone Sample.without_document). discriminate.
Defined.

(** Whatever the host answers, [_document_path] returns [None] or a
    string, makes at most two host reads (both reads of the path), and
    leaves everything but the record of calls as it was. *)
Theorem document_path_effect document s :
  (∀ v, fst (_document_path document s) = Normal v → v = VNone ∨ ∃ p, v = VStr p) ∧
  same_but_calls s (snd (_document_path document s)) ∧
  ∃ cs, calls (snd (_document_path document s)) = calls s ++ cs ∧
        (length cs ≤ 2)%nat ∧
        Forall (λ c, match c with ReadFullName _ | ReadFsName _ => True | _ => False end) cs.
Proof.
  split; [| split; [apply _document_path_frame |]].
  - rewrite _document_path_unfold.
    unfold read_fsName, get_fullName, get_fsName.
    destruct document as [| b | p | d]; py_unfold; simpl;
      try (intros v [= <-]; by left).
    destruct (fullName d) as [e | [f |]]; simpl.
    + destruct (is_Exception e); simpl; [intros v [= <-]; by left | done].
    + destruct (fsName f) as [e | [p |]]; simpl.
      * destruct (is_Exception e); simpl; [intros v [= <-]; by left | done].
      * intros v [= <-]. right. by exists p.
      * intros v [= <-]. by left.
    + intros v [= <-]. by left.
  - rewrite _document_path_unfold.
    unfold read_fsName, get_fullName, get_fsName.
    destruct document as [| b | p | d]; py_unfold; simpl;
      try (exists []; rewrite app_nil_r; repeat split; [simpl; lia | constructor]).
    destruct (fullName d) as [e | [f |]]; simpl.
    + exists [ReadFullName d]. destruct (is_Exception e); simpl;
        (split; [done | split; [simpl; lia | by repeat constructor]]).
    + exists [ReadFullName d; ReadFsName f].
      destruct (fsName f) as [e | p]; simpl;
        [destruct (is_Exception e); simpl |];
        (split; [by rewrite <- app_assoc | split; [simpl; lia | by repeat constructor]]).
    + exists [ReadFullName d]. simpl.
      split; [done | split; [simpl; lia | by repeat constructor]].
Qed.

(** ** validate, further *)

(** [validate] never returns [False]: it returns [True] or raises. *)
Theorem validate_never_false env s :
  fst (validate env s) = Normal true ∨ ∃ e, fst (validate env s) = Raised e.
Proof.
  destruct (fst (validate env s)) as [[] | e] eqn:H; [by left | | right; by exists e].
  exfalso. unfold validate in H.
  apply bind_normal_inv in H as (document & s0 & _ & H).
  apply bind_normal_inv in H as (path & s1 & _ & H).
  apply bind_normal_inv in H as (ls & s2 & _ & H).
  apply bind_normal_inv in H as ([] & s3 & _ & H).
  discriminate.
Qed.

(** [validate] only reads: whatever it returns or raises, the item's
    properties, the files and the tracking system are as before. *)
Theorem validate_reads_only env s : untouched s (snd (validate env s)).
Proof.
  revert s. change (keeps untouched (validate env)). unfold validate.
  keeps_step; [keeps_step |].
  keeps_step; [apply untouched_document_path |].
  keeps_step; [apply untouched_open |].
  keeps_step; [| keeps_step].
  keeps_step. unfold logger_info. keeps_step.
Qed.

(** Unlike [accept], [validate] indexes the properties: on an item
    without [document] it raises [KeyError] at once, with no call made
    and nothing logged. *)
Theorem validate_without_document env s :
  item_properties s !! "document" = None →
  validate env s = (Raised (KeyError "document"), s).
Proof.
  intros H. unfold validate.
  apply bind_raised. unfold properties_getitem. by rewrite H.
Qed.

Lemma validate_without_document_witness :
  validate Sample.env Sample.without_document
    = (Raised (KeyError "document"), Sample.without_document).
Proof.
  apply (validate_without_document Sample.env Sample.without_document). reflexivity.
Defined.

(** When the decode library refuses the resolved path (a [None] path of
    an unsaved document, a missing file, a file that is no PSD),
    [validate] raises that very exception and logs nothing. *)
Theorem validate_propagates_open_error env s document path e :
  item_properties s !! "document" = Some document →
  fst (_document_path document s) = Normal path →
  fst (PSDImage_open path s) = Raised e →
  fst (validate env s) = Raised e ∧
  log (snd (validate env s)) = log s.
Proof.
  intros Hdoc Hpath Hopen.
  pose proof (_document_path_frame document s) as (_ & Hcwd & Hfiles &_&_&_& Hlog1).
  destruct (_document_path document s) as [o1 s1] eqn:E1. simpl in *. subst o1.
  pose proof (PSDImage_open_frame path s1) as (_&_&_&_&_&_& Hlog2).
  pose proof (PSDImage_open_outcome path s s1 Hcwd Hfiles) as Hopen1.
  rewrite Hopen in Hopen1.
  destruct (PSDImage_open path s1) as [o2 s2] eqn:E2. simpl in *. subst o2.
  unfold validate.
  rewrite (bind_normal _ _ s document s); [| unfold properties_getitem; by rewrite Hdoc].
  rewrite (bind_normal _ _ s path s1 E1), (bind_raised _ _ s1 e s2 E2). simpl.
  split; [done | congruence].
Qed.

Lemma validate_propagates_open_error_witness :
  (fst (validate Sample.env Sample.with_unsaved_doc) = Raised TypeError ∧
   log (snd (validate Sample.env Sample.with_unsaved_doc)) = []) ∧
  (fst (validate Sample.env Scenario.with_missing_file)
     = Raised (IOError "/proj/shot/doc.psd") ∧
   log (snd (validate Sample.env Scenario.with_missing_file)) = []).
Proof.
  split.
  - apply (validate_propagates_open_error Sample.env Sample.with_unsaved_doc
             (VDoc Sample.unsaved_doc) VNone TypeError); reflexivity.
  - apply (validate_propagates_open_error Sample.env Scenario.with_missing_file
             (VDoc Sample.saved_doc) (VStr "/proj/shot/doc.psd")
             (IOError "/proj/shot/doc.psd")); reflexivity.
Defined.

(** ** finalize, further *)

Lemma os_remove_effect path s :
  item_properties (snd (os_remove path s)) = item_properties s ∧
  sg_entities (snd (os_remove path s)) = sg_entities s ∧
  (files (snd (os_remove path s)) = files s ∨
   ∃ p, path = VStr p ∧ files (snd (os_remove path s)) = delete (resolve s p) (files s)).
Proof.
  unfold os_remove. py_unfold. simpl.
  destruct path as [| b | p | d]; simpl; try (repeat split; by left).
  destruct (posixpath.is_empty p); simpl; [repeat split; by left |].
  destruct (decide _); simpl; [repeat split; by left |].
  destruct (files s !! _); simpl; [| repeat split; by left].
  repeat split. right. by exists p.
Qed.

(** With [remove_upload] truthy and a removable file at [upload_path],
    [finalize] deletes exactly that file, logs the completion line and no
    warning, and returns. *)
Theorem finalize_deletes_upload env s p data :
  item_properties s !! "upload_path" = Some (VStr p) →
  truthy (default (VBool false) (item_properties s !! "remove_upload")) = true →
  posixpath.is_empty p = false →
  resolve s p ∉ locked s →
  files s !! resolve s p = Some data →
  fst (finalize env s) = Normal tt ∧
  files (snd (finalize env s)) = delete (resolve s p) (files s) ∧
  log (snd (finalize env s)) = log s ++ [completion_record].
Proof.
  intros Hpath Hremove Hp Hfree Hfile.
  rewrite finalize_unfold, Hpath, Hremove. unfold try_except.
  rewrite os_remove_add_log, (os_remove_success p s data Hp Hfree Hfile). done.
Qed.

Lemma finalize_deletes_upload_witness :
  fst (finalize Sample.env (Sample.after_publish (VBool true))) = Normal tt ∧
  files (snd (finalize Sample.env (Sample.after_publish (VBool true))))
    = delete "/tmp/upload.psd" {[ "/tmp/upload.psd" := OtherFile ]} ∧
  log (snd (finalize Sample.env (Sample.after_publish (VBool true))))
    = [] ++ [completion_record].
Proof.
  apply (finalize_deletes_upload Sample.env (Sample.after_publish (VBool true))
           "/tmp/upload.psd" OtherFile);
    try reflexivity.
  apply not_elem_of_empty.
Defined.

Lemma finalize_is_finalize_with env : finalize env = finalize_with os_remove env.
Proof. reflexivity. Qed.

(** Whatever the removal does, [finalize] lets only two kinds of
    exception out: the [KeyError] of a missing [upload_path], and an
    exception of the removal that is no instance of [Exception]
    ([KeyboardInterrupt], [SystemExit]), which the clause
    [except Exception] does not catch.  Every failure of the removal that
    is an [Exception] is swallowed. *)
Theorem finalize_raises_only_uncaught remove env s e :
  fst (finalize_with remove env s) = Raised e →
  (item_properties s !! "upload_path" = None ∧ e = KeyError "upload_path") ∨
  (is_Exception e = false ∧
   ∃ upload_path,
     item_properties s !! "upload_path" = Some upload_path ∧
     fst (remove upload_path (add_log completion_record s)) = Raised e).
Proof.
  unfold finalize_with. py_unfold. simpl.
  destruct (item_properties s !! "upload_path") as [v |]; simpl;
    [| intros [= <-]; by left].
  destruct (truthy _); simpl; [| done].
  destruct (remove v _) as [[[] | e'] s1] eqn:Hrun; simpl; [done |].
  destruct (is_Exception e') eqn:He; simpl; [done |].
  intros [= <-]. right. split; [done |]. exists v. unfold completion_record. by rewrite Hrun.
Qed.

Lemma finalize_raises_only_uncaught_witness :
  ((item_properties Sample.never_published !! "upload_path" = None ∧
    KeyError "upload_path" = KeyError "upload_path") ∨
   (is_Exception (KeyError "upload_path") = false ∧
    ∃ upload_path,
      item_properties Sample.never_published !! "upload_path" = Some upload_path ∧
      fst (os_remove upload_path (add_log completion_record Sample.never_published))
        = Raised (KeyError "upload_path"))) ∧
  ((item_properties (Sample.after_publish (VBool true)) !! "upload_path" = None ∧
    KeyboardInterrupt = KeyError "upload_path") ∨
   (is_Exception KeyboardInterrupt = false ∧
    ∃ upload_path,
      item_properties (Sample.after_publish (VBool true)) !! "upload_path"
        = Some upload_path ∧
      fst (Scenario.interrupted_remove upload_path
             (add_log completion_record (Sample.after_publish (VBool true))))
        = Raised KeyboardInterrupt)).
Proof.
  split.
  - apply (finalize_raises_only_uncaught os_remove Sample.env Sample.never_published
             (KeyError "upload_path")). reflexivity.
  - apply (finalize_raises_only_uncaught Scenario.interrupted_remove Sample.env
             (Sample.after_publish (VBool true)) KeyboardInterrupt). reflexivity.
Defined.

(** [finalize] changes neither the item's properties nor the tracking
    system, and removes at most one file, the one [upload_path] names. *)
Theorem finalize_removes_at_most_upload env s :
  item_properties (snd (finalize env s)) = item_properties s ∧
  sg_entities (snd (finalize env s)) = sg_entities s ∧
  (files (snd (finalize env s)) = files s ∨
   ∃ p, item_properties s !! "upload_path" = Some (VStr p) ∧
        files (snd (finalize env s)) = delete (resolve s p) (files s)).
Proof.
  rewrite finalize_unfold.
  destruct (item_properties s !! "upload_path") as [v |]; [| repeat split; by left].
  destruct (truthy _); [| repeat split; by left].
  unfold try_except. rewrite os_remove_add_log.
  destruct (os_remove_effect v s) as (Hprops & Hent & Hfiles).
  destruct (os_remove v s) as [[[] | e] s1]; simpl in *.
  - repeat split; try done.
    destruct Hfiles as [? | (p & -> & ?)]; [by left | right; by exists p].
  - destruct (is_Exception e); simpl;
      (repeat split; try done;
       destruct Hfiles as [? | (p & -> & ?)]; [by left | right; by exists p]).
Qed.

(** ** publish, further *)

Lemma for_each_app {A} (xs ys : list A) (body : A → M unit) s :
  for_each (xs ++ ys) body s =
    match for_each xs body s with
    | (Normal _, s1) => for_each ys body s1
    | (Raised e, s1) => (Raised e, s1)
    end.
Proof.
  revert s. induction xs as [| x xs IH]; intros s; simpl; [done |].
  unfold bind. destruct (body x s) as [[[] | e] s1]; [apply IH | done].
Qed.

(** A turn writes at most one file, an image at the layer's target, and
    creates an entity only when it goes through. *)
Lemma publish_layer_effect env p layer s :
  (files (snd (publish_layer env (VStr p) layer s)) = files s ∨
   ∃ img, files (snd (publish_layer env (VStr p) layer s))
            = <[ resolve s (tiff_name layer) := ImageFile img ]> (files s)) ∧
  (sg_entities (snd (publish_layer env (VStr p) layer s)) = sg_entities s ∨
   fst (publish_layer env (VStr p) layer s) = Normal tt ∧
   sg_entities (snd (publish_layer env (VStr p) layer s))
     = sg_entities s ++ [layer_publish env p layer]).
Proof.
  destruct (publish_layer_cases env p layer s)
    as [[_ ->] | [(img & _ & _ & ->) | [(img & _ & _ & _ & ->) | (img & _ & _ & _ & ->)]]];
    simpl; split; eauto.
Qed.

(** Through the loop, a path keeps its contents or comes to hold an
    image: the loop deletes nothing. *)
Lemma publish_loop_files env p ls q :
  ∀ s,
    files (snd (for_each ls (publish_layer env (VStr p)) s)) !! q = files s !! q ∨
    ∃ img, files (snd (for_each ls (publish_layer env (VStr p)) s)) !! q
             = Some (ImageFile img).
Proof.
  induction ls as [| l ls IH]; intros s; simpl; [by left |].
  unfold bind.
  destruct (publish_layer_effect env p l s) as [Hfiles _].
  destruct (publish_layer env (VStr p) l s) as [[[] | e] s1]; simpl in *.
  - destruct (IH s1) as [-> | ?]; [| by right].
    destruct Hfiles as [-> | [img ->]]; [by left |].
    destruct (decide (resolve s (tiff_name l) = q)) as [<- | Hne].
    + right. exists img. apply lookup_insert_eq.
    + left. by apply lookup_insert_ne.
  - destruct Hfiles as [-> | [img ->]]; [by left |].
    destruct (decide (resolve s (tiff_name l) = q)) as [<- | Hne].
    + right. exists img. apply lookup_insert_eq.
    + left. by apply lookup_insert_ne.
Qed.


(** The entities created are those of a prefix of the layers, in order;
    the whole list when the loop returns. *)
Lemma publish_loop_prefix env p ls :
  ∀ s,
    ∃ k, (k ≤ length ls)%nat ∧
         sg_entities (snd (for_each ls (publish_layer env (VStr p)) s))
           = sg_entities s ++ map (layer_publish env p) (take k ls) ∧
         (fst (for_each ls (publish_layer env (VStr p)) s) = Normal tt → k = length ls).
Proof.
  induction ls as [| l ls IH]; intros s; simpl.
  - exists 0. by rewrite app_nil_r.
  - unfold bind.
    destruct (publish_layer_cases env p l s)
      as [[_ ->] | [(img & _ & _ & ->) | [(img & _ & _ & _ & ->) | (img & _ & _ & _ & ->)]]];
      simpl.
    1-3: exists 0; simpl; rewrite app_nil_r; split; [lia | done].
    match goal with |- context [for_each ls _ ?s1] =>
      destruct (IH s1) as (k & Hk & Hents & Hall) end.
    exists (S k). simpl. split; [lia |]. split.
    + rewrite Hents. simpl. by rewrite <- app_assoc.
    + intros Hret. by rewrite (Hall Hret).
Qed.

(** Up to its loop, [publish] has stored the path, recorded the host
    reads and the opening, and changed nothing else. *)
Lemma publish_run env s document p ls :
  item_properties s !! "document" = Some document →
  fst (_document_path document s) = Normal (VStr p) →
  fst (PSDImage_open (VStr p) s) = Normal ls →
  ∃ s3,
    publish env s = for_each ls (publish_layer env (VStr p)) s3 ∧
    item_properties s3 = <[ "upload_path" := VStr p ]> (item_properties s) ∧
    cwd s3 = cwd s ∧ files s3 = files s ∧ locked s3 = locked s ∧
    sg_online s3 = sg_online s ∧ sg_entities s3 = sg_entities s ∧
    log s3 = log s ∧
    saves (calls s3) = saves (calls s) ∧
    registrations (calls s3) = registrations (calls s).
Proof.
  intros Hdoc Hpath Hopen.
  pose proof (_document_path_frame document s)
    as (Hprops1 & Hcwd1 & Hfiles1 & Hlocked1 & Hup1 & Hent1 & Hlog1).
  pose proof (_document_path_registrations document s) as [Hreg1 Hsav1].
  destruct (_document_path document s) as [o1 s1] eqn:E1. simpl in *. subst o1.
  rewrite (publish_unfold env s document (VStr p) s1 Hdoc E1).
  set (s2 := set_properties (insert "upload_path" (VStr p)) s1).
  pose proof (PSDImage_open_frame (VStr p) s2)
    as (Hprops2 & Hcwd2 & Hfiles2 & Hlocked2 & Hup2 & Hent2 & Hlog2).
  pose proof (PSDImage_open_registrations (VStr p) s2) as [Hreg2 Hsav2].
  pose proof (PSDImage_open_outcome (VStr p) s s2 Hcwd1 Hfiles1) as Hopen2.
  rewrite Hopen in Hopen2.
  destruct (PSDImage_open (VStr p) s2) as [o2 s3] eqn:E2. simpl in *. subst o2.
  rewrite (bind_normal _ _ s2 ls s3 E2).
  exists s3. split; [done |].
  rewrite Hprops2, Hcwd2, Hfiles2, Hlocked2, Hup2, Hent2, Hlog2, Hsav2, Hreg2.
  rewrite Hprops1. repeat split; congruence.
Qed.

(** Whenever the decode library refuses the resolved path, [publish]
    raises that very exception; by then [upload_path] is stored, and no
    file, entity or log line has been added. *)
Theorem publish_propagates_open_error env s document path e :
  item_properties s !! "document" = Some document →
  fst (_document_path document s) = Normal path →
  fst (PSDImage_open path s) = Raised e →
  fst (publish env s) = Raised e ∧
  item_properties (snd (publish env s)) = <[ "upload_path" := path ]> (item_properties s) ∧
  files (snd (publish env s)) = files s ∧
  sg_entities (snd (publish env s)) = sg_entities s ∧
  log (snd (publish env s)) = log s.
Proof.
  intros Hdoc Hpath Hopen.
  pose proof (_document_path_frame document s)
    as (Hprops1 & Hcwd1 & Hfiles1 & _ & _ & Hent1 & Hlog1).
  destruct (_document_path document s) as [o1 s1] eqn:E1. simpl in *. subst o1.
  rewrite (publish_unfold env s document path s1 Hdoc E1).
  set (s2 := set_properties (insert "upload_path" path) s1).
  pose proof (PSDImage_open_frame path s2)
    as (Hprops2 & _ & Hfiles2 & _ & _ & Hent2 & Hlog2).
  pose proof (PSDImage_open_outcome path s s2 Hcwd1 Hfiles1) as Hopen2.
  rewrite Hopen in Hopen2.
  destruct (PSDImage_open path s2) as [o2 s3] eqn:E2. simpl in *. subst o2.
  rewrite (bind_raised _ _ s2 e s3 E2). simpl.
  rewrite Hprops2, Hfiles2, Hent2, Hlog2, Hprops1. repeat split; congruence.
Qed.

Lemma publish_propagates_open_error_witness :
  fst (publish Sample.env Sample.with_unsaved_doc) = Raised TypeError ∧
  item_properties (snd (publish Sample.env Sample.with_unsaved_doc))
    = <[ "upload_path" := VNone ]> (item_properties Sample.with_unsaved_doc) ∧
  files (snd (publish Sample.env Sample.with_unsaved_doc)) = ∅ ∧
  sg_entities (snd (publish Sample.env Sample.with_unsaved_doc)) = [] ∧
  log (snd (publish Sample.env Sample.with_unsaved_doc)) = [].
Proof.
  apply (publish_propagates_open_error Sample.env Sample.with_unsaved_doc
           (VDoc Sample.unsaved_doc) VNone TypeError); reflexivity.
Defined.

(** On an item without [document], [publish] raises [KeyError] at once
    and leaves everything as it was: no [upload_path] is stored. *)
Theorem publish_without_document env s :
  item_properties s !! "document" = None →
  publish env s = (Raised (KeyError "document"), s).
Proof.
  intros H. unfold publish.
  apply bind_raised. unfold properties_getitem. by rewrite H.
Qed.

Lemma publish_without_document_witness :
  publish Sample.env Sample.without_document
    = (Raised (KeyError "document"), Sample.without_document).
Proof.
  apply (publish_without_document Sample.env Sample.without_document). reflexivity.
Defined.



Lemma publish_loop_log env p ls :
  ∀ s s',
    for_each ls (publish_layer env (VStr p)) s = (Normal tt, s') →
    log s' = log s ++ map saved_record ls.
Proof.
  induction ls as [| l ls IH]; intros s s'; simpl.
  - intros [= <-]. by rewrite app_nil_r.
  - unfold bind at 1.
    destruct (publish_layer env (VStr p) l s) as [[[] | e] s1] eqn:E1; [| done].
    intros Hrest. apply IH in Hrest as ->.
    apply publish_layer_normal in E1 as (img & _ & ->).
    simpl. by rewrite <- app_assoc.
Qed.

(** When the loop returns, the target of every layer holds an image. *)
Lemma publish_loop_images env p ls :
  ∀ s s',
    for_each ls (publish_layer env (VStr p)) s = (Normal tt, s') →
    Forall (λ l, ∃ img, files s' !! resolve s (tiff_name l) = Some (ImageFile img)) ls.
Proof.
  induction ls as [| l ls IH]; intros s s'; simpl; [by constructor |].
  unfold bind at 1.
  destruct (publish_layer env (VStr p) l s) as [[[] | e] s1] eqn:E1; [| done].
  intros Hrest.
  pose proof (publish_layer_setting env (VStr p) l s) as (_ & Hcwd & _).
  rewrite E1 in Hcwd. simpl in Hcwd.
  constructor.
  - pose proof (publish_loop_files env p ls (resolve s (tiff_name l)) s1) as Hq.
    rewrite Hrest in Hq. simpl in Hq.
    destruct Hq as [-> | ?]; [| done].
    apply publish_layer_normal in E1 as (img & _ & ->).
    exists img. simpl. apply lookup_insert_eq.
  - apply IH in Hrest. eapply Forall_impl; [exact Hrest |].
    intros l'. unfold resolve. by rewrite Hcwd.
Qed.

(** The loop stops at the first layer without pixels: the layers before
    it are saved and registered, nothing after it is. *)
Theorem publish_stops_at_empty_layer env s document p good bad rest :
  item_properties s !! "document" = Some document →
  fst (_document_path document s) = Normal (VStr p) →
  fst (PSDImage_open (VStr p) s) = Normal (good ++ bad :: rest) →
  sg_online s = true →
  Forall (λ l, is_Some (layer_compose l) ∧ resolve s (tiff_name l) ∉ locked s) good →
  layer_compose bad = None →
  fst (publish env s) = Raised (AttributeError "save") ∧
  sg_entities (snd (publish env s))
    = sg_entities s ++ map (layer_publish env p) good ∧
  saves (calls (snd (publish env s))) = saves (calls s) ++ map tiff_name good.
Proof.
  intros Hdoc Hpath Hopen Hup Hgood Hbad.
  destruct (publish_run env s document p _ Hdoc Hpath Hopen)
    as (s3 & -> & _ & Hcwd & _ & Hlocked & Hup3 & Hent & _ & Hsav & _).
  rewrite for_each_app.
  assert (fst (for_each good (publish_layer env (VStr p)) s3) = Normal tt) as Hret.
  { apply publish_loop_total; [congruence |].
    eapply Forall_impl; [exact Hgood |]. intros l [? ?]. split; [done |].
    unfold resolve, tiff_name in *. by rewrite Hcwd, Hlocked. }
  destruct (for_each good (publish_layer env (VStr p)) s3) as [o s4] eqn:E.
  simpl in Hret. subst o.
  apply publish_loop_normal in E as (_ & Hents & Hsaves).
  assert (for_each (bad :: rest) (publish_layer env (VStr p)) s4
          = (Raised (AttributeError "save"), s4)) as ->.
  { simpl. apply bind_raised. unfold publish_layer. apply bind_raised.
    unfold Image_save. by rewrite Hbad. }
  simpl. rewrite Hents, Hsaves, Hent, Hsav. done.
Qed.

Lemma publish_stops_at_empty_layer_witness :
  fst (publish Sample.env Scenario.with_gap) = Raised (AttributeError "save") ∧
  sg_entities (snd (publish Sample.env Scenario.with_gap))
    = [] ++ map (layer_publish Sample.env "/proj/shot/doc.psd")
                [mkLayer "bg" (Some [1%Z])] ∧
  saves (calls (snd (publish Sample.env Scenario.with_gap)))
    = [] ++ map tiff_name [mkLayer "bg" (Some [1%Z])].
Proof.
  apply (publish_stops_at_empty_layer Sample.env Scenario.with_gap
           (VDoc Sample.saved_doc) "/proj/shot/doc.psd"
           [mkLayer "bg" (Some [1%Z])] (mkLayer "empty" None)
           [mkLayer "text" (Some [3%Z])]);
    try reflexivity.
  repeat constructor; [eexists; reflexivity | apply not_elem_of_empty].
Defined.

(** When the tracking server does not answer, the first layer's image is
    already written: [publish] raises after the save, with one
    registration attempted and no entity created. *)
Theorem publish_offline_leaves_file env s document p l rest img :
  item_properties s !! "document" = Some document →
  fst (_document_path document s) = Normal (VStr p) →
  fst (PSDImage_open (VStr p) s) = Normal (l :: rest) →
  layer_compose l = Some img →
  resolve s (tiff_name l) ∉ locked s →
  sg_online s = false →
  fst (publish env s) = Raised ShotgunError ∧
  files (snd (publish env s)) = <[ resolve s (tiff_name l) := ImageFile img ]> (files s) ∧
  sg_entities (snd (publish env s)) = sg_entities s ∧
  registrations (calls (snd (publish env s)))
    = registrations (calls s) ++ [layer_publish env p l].
Proof.
  intros Hdoc Hpath Hopen Himg Hfree Hdown.
  destruct (publish_run env s document p _ Hdoc Hpath Hopen)
    as (s3 & -> & _ & Hcwd & Hfiles & Hlocked & Hup3 & Hent & _ & _ & Hreg).
  simpl. unfold bind.
  destruct (publish_layer_cases env p l s3)
    as [[Hnone _] | [(i & _ & Hin & _) | [(i & Hi & _ & _ & ->) | (i & _ & _ & Hon & _)]]].
  - congruence.
  - exfalso. apply Hfree. unfold resolve in *. by rewrite <- Hcwd, <- Hlocked.
  - simpl. assert (i = img) as -> by congruence.
    unfold resolve. rewrite Hcwd, Hfiles, Hent.
    repeat split; try done.
    unfold registrations in *. rewrite !omap_app, Hreg. simpl.
    by rewrite app_nil_r.
  - congruence.
Qed.

Lemma publish_offline_leaves_file_witness :
  fst (publish Sample.env Scenario.offline) = Raised ShotgunError ∧
  files (snd (publish Sample.env Scenario.offline))
    = <[ "/home/artist/bg.tiff" := ImageFile [1%Z] ]> (Sample.psd_on_disk Sample.layers3) ∧
  sg_entities (snd (publish Sample.env Scenario.offline)) = [] ∧
  registrations (calls (snd (publish Sample.env Scenario.offline)))
    = [] ++ [layer_publish Sample.env "/proj/shot/doc.psd" (mkLayer "bg" (Some [1%Z]))].
Proof.
  apply (publish_offline_leaves_file Sample.env Scenario.offline
           (VDoc Sample.saved_doc) "/proj/shot/doc.psd"
           (mkLayer "bg" (Some [1%Z]))
           [mkLayer "fg" (Some [2%Z]); mkLayer "text" (Some [3%Z])] [1%Z]);
    try reflexivity.
  apply not_elem_of_empty.
Defined.





(** When the working directory is the document's directory, the paths
    registered are where the images are: after a [publish] that returns,
    every registered path holds an image. *)
Theorem publish_beside_document env s document p ls :
  item_properties s !! "document" = Some document →
  fst (_document_path document s) = Normal (VStr p) →
  fst (PSDImage_open (VStr p) s) = Normal ls →
  cwd s = posixpath.dirname p →
  fst (publish env s) = Normal tt →
  Forall (λ r, ∃ img, files (snd (publish env s)) !! rp_path r = Some (ImageFile img))
         (map (layer_publish env p) ls).
Proof.
  intros Hdoc Hpath Hopen Hdir.
  destruct (publish_run env s document p ls Hdoc Hpath Hopen)
    as (s3 & -> & _ & Hcwd & _).
  destruct (for_each ls (publish_layer env (VStr p)) s3) as [o s4] eqn:E.
  simpl. intros ->.
  apply publish_loop_images in E. apply Forall_map.
  eapply Forall_impl; [exact E |]. intros l. simpl.
  unfold resolve. by rewrite Hcwd, Hdir.
Qed.

Lemma publish_beside_document_witness :
  Forall (λ r, ∃ img, files (snd (publish Sample.env Scenario.in_document_directory))
                        !! rp_path r = Some (ImageFile img))
         (map (layer_publish Sample.env "/proj/shot/doc.psd") Sample.layers3).
Proof.
  apply (publish_beside_document Sample.env Scenario.in_document_directory
           (VDoc Sample.saved_doc) "/proj/shot/doc.psd" Sample.layers3);
    reflexivity.
Defined.

(** A [publish] that returns has logged exactly one line per layer, in
    order; the line names [<layer>.psd] although the file saved is
    [<layer>.tiff]. *)
Theorem publish_logs_each_layer env s document p ls :
  item_properties s !! "document" = Some document →
  fst (_document_path document s) = Normal (VStr p) →
  fst (PSDImage_open (VStr p) s) = Normal ls →
  fst (publish env s) = Normal tt →
  log (snd (publish env s))
    = log s ++ map (λ l, mkLog INFO ("Saved Layer " +:+ layer_name l +:+ ".psd") None) ls.
Proof.
  intros Hdoc Hpath Hopen.
  destruct (publish_run env s document p ls Hdoc Hpath Hopen)
    as (s3 & -> & _ & _ & _ & _ & _ & _ & Hlog & _).
  destruct (for_each ls (publish_layer env (VStr p)) s3) as [o s4] eqn:E.
  simpl. intros ->.
  apply publish_loop_log in E as ->. by rewrite Hlog.
Qed.

Lemma publish_logs_each_layer_witness :
  log (snd (publish Sample.env Sample.with_saved_doc))
    = [] ++ [ mkLog INFO "Saved Layer bg.psd" None;
              mkLog INFO "Saved Layer fg.psd" None;
              mkLog INFO "Saved Layer text.psd" None ].
Proof.
  apply (publish_logs_each_layer Sample.env Sample.with_saved_doc
           (VDoc Sample.saved_doc) "/proj/shot/doc.psd" Sample.layers3);
    reflexivity.
Defined.

Lemma PSDImage_open_normal path s ls :
  fst (PSDImage_open path s) = Normal ls →
  ∃ p, path = VStr p ∧ posixpath.is_empty p = false ∧
       files s !! resolve s p = Some (PsdFile ls).
Proof.
  unfold PSDImage_open. py_unfold. simpl.
  destruct path as [| b | p | d]; simpl; try done.
  destruct (posixpath.is_empty p) eqn:Hp; simpl; [done |].
  unfold resolve. simpl.
  destruct (files s !! _) as [[ls' | |] |] eqn:Hfile; simpl; try done.
  intros [= ->]. by exists p.
Qed.

(** [publish] followed by [finalize] on an item with [remove_upload]
    truthy deletes the source document: [upload_path] is the path of the
    document itself, so [finalize] removes that file (or the image a layer
    saved over it) and returns without a warning. *)
Theorem publish_then_finalize_removes_document env s document p ls :
  item_properties s !! "document" = Some document →
  fst (_document_path document s) = Normal (VStr p) →
  fst (PSDImage_open (VStr p) s) = Normal ls →
  truthy (default (VBool false) (item_properties s !! "remove_upload")) = true →
  resolve s p ∉ locked s →
  fst (finalize env (snd (publish env s))) = Normal tt ∧
  files (snd (finalize env (snd (publish env s)))) !! resolve s p = None ∧
  log (snd (finalize env (snd (publish env s))))
    = log (snd (publish env s)) ++ [completion_record].
Proof.
  intros Hdoc Hpath Hopen Hremove Hfree.
  destruct (PSDImage_open_normal _ _ _ Hopen) as (p' & [= <-] & Hp & Hfile).
  destruct (publish_run env s document p ls Hdoc Hpath Hopen)
    as (s3 & -> & Hprops & Hcwd & Hfiles & Hlocked & _).
  pose proof (for_each_setting (publish_layer env (VStr p)) ls
                (publish_layer_setting env (VStr p)) s3)
    as (Hprops4 & Hcwd4 & Hlocked4 & _).
  pose proof (publish_loop_files env p ls (resolve s p) s3) as Hq.
  set (s4 := snd (for_each ls (publish_layer env (VStr p)) s3)) in *.
  assert (resolve s4 p = resolve s p) as Hres
    by (unfold resolve; by rewrite Hcwd4, Hcwd).
  assert (∃ data, files s4 !! resolve s4 p = Some data) as [data Hdata].
  { rewrite Hres. destruct Hq as [-> | [img ->]]; [| by eauto].
    rewrite Hfiles. eauto. }
  rewrite finalize_unfold, Hprops4, Hprops, lookup_insert_eq.
  rewrite lookup_insert_ne by done. rewrite Hremove.
  unfold try_except. rewrite os_remove_add_log.
  rewrite (os_remove_success p s4 data Hp); [| | exact Hdata].
  - simpl. rewrite Hres. split; [done |]. split; [apply lookup_delete_eq | done].
  - rewrite Hres, Hlocked4, Hlocked. exact Hfree.
Qed.

Lemma publish_then_finalize_removes_document_witness :
  fst (finalize Sample.env (snd (publish Sample.env Scenario.with_remove_upload)))
    = Normal tt ∧
  files (snd (finalize Sample.env (snd (publish Sample.env Scenario.with_remove_upload))))
    !! "/proj/shot/doc.psd" = None ∧
  log (snd (finalize Sample.env (snd (publish Sample.env Scenario.with_remove_upload))))
    = log (snd (publish Sample.env Scenario.with_remove_upload)) ++ [completion_record].
Proof.
  apply (publish_then_finalize_removes_document Sample.env Scenario.with_remove_upload
           (VDoc Sample.saved_doc) "/proj/shot/doc.psd" Sample.layers3);
    try reflexivity.
  apply not_elem_of_empty.
Defined.

Lemma files_kept_refl s : files_kept s s.
Proof. by unfold files_kept. Qed.

Lemma files_kept_trans s1 s2 s3 :
  files_kept s1 s2 → files_kept s2 s3 → files_kept s1 s3.
Proof. unfold files_kept. set_solver. Qed.

Lemma untouched_files_kept {A} (m : M A) : keeps untouched m → keeps files_kept m.
Proof.
  intros H s. destruct (H s) as (_ & _ & Hfiles & _).
  unfold files_kept. by rewrite Hfiles.
Qed.

Lemma files_kept_save img filename : keeps files_kept (Image_save img filename).
Proof.
  intros s. unfold Image_save, files_kept.
  destruct img as [i |]; py_unfold; simpl; [| done].
  destruct (decide _); simpl; [done |].
  rewrite dom_insert_L. set_solver.
Qed.

Lemma files_kept_register r : keeps files_kept (register_publish r).
Proof.
  intros s. unfold register_publish, files_kept. py_unfold. simpl.
  by destruct (sg_online s).
Qed.

(** [publish] deletes nothing: every path that held a file before holds
    one after, however [publish] ends. *)
Theorem publish_never_deletes env s q :
  is_Some (files s !! q) → is_Some (files (snd (publish env s)) !! q).
Proof.
  rewrite <- !elem_of_dom. revert q.
  change (files_kept s (snd (publish env s))).
  revert s. change (keeps files_kept (publish env)). unfold publish.
  apply (keeps_bind files_kept files_kept_trans);
    [apply untouched_files_kept, untouched_getitem | intros document].
  apply (keeps_bind files_kept files_kept_trans);
    [apply untouched_files_kept, untouched_document_path | intros path].
  apply (keeps_bind files_kept files_kept_trans);
    [intros s; by unfold files_kept | intros _].
  apply (keeps_bind files_kept files_kept_trans);
    [apply untouched_files_kept, untouched_open | intros ls].
  apply (keeps_for_each files_kept files_kept_refl files_kept_trans). intros l.
  unfold publish_layer.
  apply (keeps_bind files_kept files_kept_trans); [apply files_kept_save | intros _].
  apply (keeps_bind files_kept files_kept_trans);
    [apply untouched_files_kept; unfold logger_info; keeps_step | intros _].
  apply (keeps_bind files_kept files_kept_trans); [| intros dir; apply files_kept_register].
  apply untouched_files_kept. unfold os_path_dirname. destruct path; keeps_step.
Qed.

Lemma publish_never_deletes_witness :
  is_Some (files (snd (publish Sample.env Scenario.with_gap)) !! "/proj/shot/doc.psd").
Proof.
  apply (publish_never_deletes Sample.env Scenario.with_gap "/proj/shot/doc.psd").
  eexists. reflexivity.
Defined.

(** ** Registered paths *)

Lemma head_of_cons c r :
  posixpath.head_of (String c r) =
    if posixpath.is_empty (posixpath.head_of r)
    then (if posixpath.is_sep c then String c EmptyString else EmptyString)
    else String c (posixpath.head_of r).
Proof. reflexivity. Qed.

Lemma rstrip_cons c r :
  posixpath.rstrip_sep (String c r) =
    if posixpath.is_empty (posixpath.rstrip_sep r) && posixpath.is_sep c
    then EmptyString else String c (posixpath.rstrip_sep r).
Proof. reflexivity. Qed.

Lemma head_of_no_sep f : has_sep f = false → posixpath.head_of f = "".
Proof.
  induction f as [| c r IH]; [done |].
  intros [Hc Hr]%orb_false_iff. by rewrite head_of_cons, (IH Hr), Hc.
Qed.

Lemma is_empty_app_sep d f : posixpath.is_empty (d +:+ String "/" f) = false.
Proof. by destruct d. Qed.

Lemma head_of_app_sep d f :
  has_sep f = false → posixpath.head_of (d +:+ String "/" f) = d +:+ "/".
Proof.
  intros Hf. induction d as [| c d IH].
  - change (posixpath.head_of (String "/" f) = "/").
    by rewrite head_of_cons, (head_of_no_sep f Hf).
  - change (posixpath.head_of (String c (d +:+ String "/" f)) = String c (d +:+ "/")).
    by rewrite head_of_cons, IH, (is_empty_app_sep d "").
Qed.

Lemma head_of_app_endsep d f :
  posixpath.endswith_sep d = true → has_sep f = false →
  posixpath.head_of (d +:+ f) = d.
Proof.
  intros Hd Hf. induction d as [| c d IH]; [done |].
  change (posixpath.head_of (String c (d +:+ f)) = String c d).
  rewrite head_of_cons. destruct d as [| c' d'].
  - change (EmptyString +:+ f) with f. simpl in Hd.
    by rewrite (head_of_no_sep f Hf), Hd.
  - by rewrite (IH Hd).
Qed.

Lemma rstrip_app_sep d : posixpath.rstrip_sep (d +:+ "/") = posixpath.rstrip_sep d.
Proof.
  induction d as [| c d IH]; [done |].
  change (posixpath.rstrip_sep (String c (d +:+ "/")) = posixpath.rstrip_sep (String c d)).
  by rewrite !rstrip_cons, IH.
Qed.

Lemma rstrip_id d : posixpath.endswith_sep d = false → posixpath.rstrip_sep d = d.
Proof.
  induction d as [| c d IH]; [done |].
  intros Hd. rewrite rstrip_cons. destruct d as [| c' d'].
  - simpl in *. by rewrite Hd.
  - by rewrite (IH Hd).
Qed.

Lemma rstrip_not_endsep s : posixpath.endswith_sep (posixpath.rstrip_sep s) = false.
Proof.
  induction s as [| c r IH]; simpl; [done |].
  destruct (posixpath.rstrip_sep r) as [| c' r'] eqn:Hr; simpl.
  - by destruct (posixpath.is_sep c) eqn:Hc; simpl.
  - exact IH.
Qed.

Lemma rstrip_not_all_sep s :
  posixpath.all_sep s = false → posixpath.all_sep (posixpath.rstrip_sep s) = false.
Proof.
  induction s as [| c r IH]; simpl; [done |].
  intros H. destruct (posixpath.is_sep c) eqn:Hc; simpl in *.
  - specialize (IH H). destruct (posixpath.rstrip_sep r); simpl in *; [done |].
    by rewrite Hc.
  - rewrite andb_false_r. simpl. by rewrite Hc.
Qed.

Lemma all_sep_endswith d :
  posixpath.all_sep d = true → posixpath.is_empty d = false →
  posixpath.endswith_sep d = true.
Proof.
  induction d as [| c d IH]; [done |]. simpl.
  intros [Hc Hd]%andb_true_iff _. destruct d; [done |]. by apply IH.
Qed.

Lemma all_sep_app_sep d :
  posixpath.all_sep d = false → posixpath.all_sep (d +:+ "/") = false.
Proof.
  induction d as [| c d IH]; simpl; [done |].
  intros [-> | Hd]%andb_false_iff; [done |]. rewrite (IH Hd). apply andb_false_r.
Qed.

Lemma has_sep_tiff n : has_sep n = false → has_sep (n +:+ ".tiff") = false.
Proof.
  induction n as [| c n IH]; simpl; [done |].
  intros [-> Hn]%orb_false_iff. by rewrite (IH Hn).
Qed.

Lemma startswith_no_sep f : has_sep f = false → posixpath.startswith_sep f = false.
Proof. destruct f; simpl; [done |]. by intros [-> _]%orb_false_iff. Qed.

(** Joining a file name to the directory of [p] and taking the directory
    again gives the directory of [p]. *)
Lemma dirname_join_dirname p f :
  has_sep f = false →
  posixpath.dirname (posixpath.join (posixpath.dirname p) f) = posixpath.dirname p.
Proof.
  intros Hf. unfold posixpath.dirname at 2 3.
  set (h := posixpath.head_of p).
  unfold posixpath.join. rewrite (startswith_no_sep f Hf).
  destruct (posixpath.is_empty h) eqn:He; simpl.
  - rewrite He. destruct h; [| done].
    change (posixpath.dirname f = "").
    unfold posixpath.dirname. by rewrite (head_of_no_sep f Hf).
  - destruct (posixpath.all_sep h) eqn:Ha; simpl.
    + rewrite He, (all_sep_endswith h Ha He). simpl.
      unfold posixpath.dirname. rewrite (head_of_app_endsep h f); [| by apply all_sep_endswith | done].
      by rewrite He, Ha.
    + pose proof (rstrip_not_endsep h) as Hend.
      pose proof (rstrip_not_all_sep h Ha) as Hall.
      set (d := posixpath.rstrip_sep h) in *.
      assert (posixpath.is_empty d = false) as Hd by (by destruct d).
      rewrite Hd, Hend.
      change (posixpath.dirname (d +:+ String "/" f) = d).
      unfold posixpath.dirname. rewrite (head_of_app_sep d f Hf).
      rewrite (is_empty_app_sep d ""), (all_sep_app_sep d Hall).
      change (posixpath.rstrip_sep (d +:+ "/") = d).
      by rewrite rstrip_app_sep, rstrip_id.
Qed.

(** When no layer name contains a slash, every entity [publish] creates
    is registered at a path whose directory is the document's directory,
    however [publish] ends. *)
Theorem publish_registers_in_document_directory env s document p ls :
  item_properties s !! "document" = Some document →
  fst (_document_path document s) = Normal (VStr p) →
  fst (PSDImage_open (VStr p) s) = Normal ls →
  Forall (λ l, has_sep (layer_name l) = false) ls →
  ∃ new,
    sg_entities (snd (publish env s)) = sg_entities s ++ new ∧
    Forall (λ r, posixpath.dirname (rp_path r) = posixpath.dirname p) new.
Proof.
  intros Hdoc Hpath Hopen Hnames.
  destruct (publish_run env s document p ls Hdoc Hpath Hopen)
    as (s3 & -> & _ & _ & _ & _ & _ & Hent & _).
  destruct (publish_loop_prefix env p ls s3) as (k & _ & Hents & _).
  exists (map (layer_publish env p) (take k ls)).
  split; [by rewrite Hents, Hent |].
  apply Forall_map. apply Forall_take.
  eapply Forall_impl; [exact Hnames |]. intros l Hl. simpl.
  apply dirname_join_dirname. by apply has_sep_tiff.
Qed.

Lemma publish_registers_in_document_directory_witness :
  ∃ new,
    sg_entities (snd (publish Sample.env Sample.with_saved_doc)) = [] ++ new ∧
    Forall (λ r, posixpath.dirname (rp_path r) = posixpath.dirname "/proj/shot/doc.psd")
           new.
Proof.
  apply (publish_registers_in_document_directory Sample.env Sample.with_saved_doc
           (VDoc Sample.saved_doc) "/proj/shot/doc.psd" Sample.layers3);
    try reflexivity.
  repeat constructor.
Defined.

(** ** What a verdict of validate means *)

(** [validate] answers [True] only for an item whose document resolves
    to a path string that the decode library opens. *)
Theorem validate_true_means_opens env s :
  fst (validate env s) = Normal true →
  ∃ document p ls,
    item_properties s !! "document" = Some document ∧
    fst (_document_path document s) = Normal (VStr p) ∧
    fst (PSDImage_open (VStr p) s) = Normal ls.
Proof.
  unfold validate. intros H.
  apply bind_normal_inv in H as (document & s0 & Hget & H).
  apply bind_normal_inv in H as (path & s1 & Hpath & H).
  apply bind_normal_inv in H as (ls & s2 & Hopen & _).
  unfold properties_getitem in Hget.
  destruct (item_properties s !! "document") as [v |] eqn:Hdoc; [| done].
  injection Hget as -> <-.
  pose proof (_document_path_frame document s) as (_ & Hcwd & Hfiles & _).
  rewrite Hpath in Hcwd, Hfiles. simpl in *.
  pose proof (PSDImage_open_outcome path s s1 Hcwd Hfiles) as Hsame.
  rewrite Hopen in Hsame. simpl in Hsame.
  destruct (PSDImage_open_normal path s ls (eq_sym Hsame)) as (p & -> & _).
  exists document, p, ls. by rewrite Hpath.
Qed.

Lemma validate_true_means_opens_witness :
  ∃ document p ls,
    item_properties Sample.with_saved_doc !! "document" = Some document ∧
    fst (_document_path document Sample.with_saved_doc) = Normal (VStr p) ∧
    fst (PSDImage_open (VStr p) Sample.with_saved_doc) = Normal ls.
Proof.
  apply (validate_true_means_opens Sample.env Sample.with_saved_doc). reflexivity.
Defined.

(** ** The remedy offered for an unsaved document *)

(** The button [accept] attaches to its warning opens the file-save
    dialog of the [tk-multi-workfiles2] app only when that app is
    configured and has the dialog; in every other case it calls the
    engine's [save_as] on the very document of the item. *)
Theorem accept_unsaved_callback env s d path :
  item_properties s !! "document" = Some (VDoc d) →
  fst (_document_path (VDoc d) s) = Normal path →
  truthy path = false →
  log (snd (accept env s)) !! length (log s)
    = Some (mkLog WARNING
              ("The Photoshop document '" +:+ doc_name d +:+ "' has not been saved.")
              (Some (ActionButton "Save As..." "Save the current document"
                       (if workfiles2_dialog env then ShowFileSaveDlg
                        else EngineSaveAs (VDoc d))))).
Proof.
  intros Hdoc Hpath Hfalsy.
  pose proof (_document_path_frame (VDoc d) s) as (_&_&_&_&_&_&Hlog).
  destruct (_document_path (VDoc d) s) as [o s1] eqn:Hrun. simpl in *. subst o.
  rewrite (accept_unsaved_run env s d path s1 Hdoc Hrun Hfalsy). simpl.
  rewrite Hlog, <- app_assoc.
  rewrite lookup_app_r by lia. rewrite Nat.sub_diag. simpl.
  unfold _get_save_as_action, workfiles2_dialog.
  destruct (engine_apps env !! "tk-multi-workfiles2") as [app |]; [| done].
  by destruct (has_show_file_save_dlg app).
Qed.

Lemma accept_unsaved_callback_witness :
  log (snd (accept Scenario.env_with_dialog Sample.with_unsaved_doc)) !! 0
    = Some (mkLog WARNING "The Photoshop document 'Untitled-1' has not been saved."
              (Some (ActionButton "Save As..." "Save the current document"
                       ShowFileSaveDlg))) ∧
  log (snd (accept Scenario.env_without_dialog Sample.with_unsaved_doc)) !! 0
    = Some (mkLog WARNING "The Photoshop document 'Untitled-1' has not been saved."
              (Some (ActionButton "Save As..." "Save the current document"
                       (EngineSaveAs (VDoc Sample.unsaved_doc))))).
Proof.
  split.
  - apply (accept_unsaved_callback Scenario.env_with_dialog Sample.with_unsaved_doc
             Sample.unsaved_doc VNone); reflexivity.
  - apply (accept_unsaved_callback Scenario.env_without_dialog Sample.with_unsaved_doc
             Sample.unsaved_doc VNone); reflexivity.
Defined.
